(** * dma_memcpy: interrupt-driven chunked uDMA memory copy

    A shallow embedding of [src/dma_memcpy.c].  The module's static
    variables form one record, the ROM driver-library calls and the
    invocations of the user callback are recorded as a trace of events,
    and each C function is a computation in a small state-and-trace monad.

    The two values the module reads back from the controller
    ([ROM_uDMAErrorStatusGet] and [ROM_uDMAChannelModeGet]) are inputs of
    the interrupt handlers: the hardware decides them.

    Each function runs to its end before the next one starts: a run of the
    module is a sequence of calls of [dma_memcpy], [init_dma_memcpy] and
    the two handlers.  A call of the user callback is an event of the
    trace; what the callback does is the caller's code and is not part of
    the model. *)

From Stdlib Require Import ZArith List Lia Bool.
Import ListNotations.
Open Scope Z_scope.

(** ** Machine integers and pointers *)

(** [uint32_t] arithmetic wraps modulo 2^32. *)
Definition u32 (x : Z) : Z := x mod 2 ^ 32.

(** A [uint32_t *] is a byte address; adding [n] to it moves it by [n]
    words of four bytes, in the 32-bit address space of the target. *)
Definition ptr_add (p n : Z) : Z := u32 (p + 4 * n).

Definition NULL : Z := 0.

(** [#define MAX_XFER_LEN 1024] *)
Definition MAX_XFER_LEN : Z := 1024.

(** ** The driver library

    The constants of [driverlib/udma.h] are not part of this repository:
    the development is parametric in them. *)
Record driverlib : Type := {
  UDMA_MODE_STOP : Z;
  UDMA_MODE_AUTO : Z;
  UDMA_PRI_SELECT : Z;
  UDMA_ATTR_USEBURST : Z;
  UDMA_ATTR_ALTSELECT : Z;
  UDMA_ATTR_HIGH_PRIORITY : Z;
  UDMA_ATTR_REQMASK : Z;
  UDMA_SIZE_32 : Z;
  UDMA_SRC_INC_32 : Z;
  UDMA_DST_INC_32 : Z;
  UDMA_ARB_8 : Z
}.

(** One instance, with the values the TivaWare header gives them, to run
    the model on concrete inputs. *)
Definition tivaware : driverlib := {|
  UDMA_MODE_STOP := 0;
  UDMA_MODE_AUTO := 2;
  UDMA_PRI_SELECT := 0;
  UDMA_ATTR_USEBURST := 1;
  UDMA_ATTR_ALTSELECT := 2;
  UDMA_ATTR_HIGH_PRIORITY := 4;
  UDMA_ATTR_REQMASK := 8;
  UDMA_SIZE_32 := 570425344;
  UDMA_SRC_INC_32 := 134217728;
  UDMA_DST_INC_32 := 2147483648;
  UDMA_ARB_8 := 49152
|}.

(** What the module does to the outside world: the ROM calls, with their
    arguments, and the calls of the user callback. *)
Inductive event : Type :=
| ErrorStatusGet
| ErrorStatusClear
| ChannelModeGet (chan : Z)
| ChannelTransferSet (chan mode src dst len : Z)
| ChannelEnable (chan : Z)
| ChannelRequest (chan : Z)
| ChannelAttributeDisable (chan attr : Z)
| ChannelControlSet (chan ctl : Z)
| Callback (fn code : Z).

(** ** The static variables *)

Record udma : Type := mkUdma {
  udma_error_cnt : Z;
  udma_xfer_fail_cnt : Z;
  udma_xfer_succ_cnt : Z;
  udma_xfer_len : Z;
  udma_channel_lock : Z;
  udma_is_initialized : Z;
  udma_channel : Z;
  udma_xfer_src : Z;
  udma_xfer_dst : Z;
  udma_callback_ptr : Z;
  (* [static uint32_t len] of [uDMAIntHandler] *)
  handler_len : Z
}.

(** The initialisers of the static variables. *)
Definition udma_init : udma :=
  mkUdma 0 0 0 0 0 0 NULL 0 0 NULL 0.

Definition set_error_cnt (v : Z) (s : udma) : udma :=
  mkUdma v (udma_xfer_fail_cnt s) (udma_xfer_succ_cnt s) (udma_xfer_len s)
    (udma_channel_lock s) (udma_is_initialized s) (udma_channel s)
    (udma_xfer_src s) (udma_xfer_dst s) (udma_callback_ptr s) (handler_len s).

Definition set_xfer_fail_cnt (v : Z) (s : udma) : udma :=
  mkUdma (udma_error_cnt s) v (udma_xfer_succ_cnt s) (udma_xfer_len s)
    (udma_channel_lock s) (udma_is_initialized s) (udma_channel s)
    (udma_xfer_src s) (udma_xfer_dst s) (udma_callback_ptr s) (handler_len s).

Definition set_xfer_succ_cnt (v : Z) (s : udma) : udma :=
  mkUdma (udma_error_cnt s) (udma_xfer_fail_cnt s) v (udma_xfer_len s)
    (udma_channel_lock s) (udma_is_initialized s) (udma_channel s)
    (udma_xfer_src s) (udma_xfer_dst s) (udma_callback_ptr s) (handler_len s).

Definition set_xfer_len (v : Z) (s : udma) : udma :=
  mkUdma (udma_error_cnt s) (udma_xfer_fail_cnt s) (udma_xfer_succ_cnt s) v
    (udma_channel_lock s) (udma_is_initialized s) (udma_channel s)
    (udma_xfer_src s) (udma_xfer_dst s) (udma_callback_ptr s) (handler_len s).

Definition set_channel_lock (v : Z) (s : udma) : udma :=
  mkUdma (udma_error_cnt s) (udma_xfer_fail_cnt s) (udma_xfer_succ_cnt s)
    (udma_xfer_len s) v (udma_is_initialized s) (udma_channel s)
    (udma_xfer_src s) (udma_xfer_dst s) (udma_callback_ptr s) (handler_len s).

Definition set_is_initialized (v : Z) (s : udma) : udma :=
  mkUdma (udma_error_cnt s) (udma_xfer_fail_cnt s) (udma_xfer_succ_cnt s)
    (udma_xfer_len s) (udma_channel_lock s) v (udma_channel s)
    (udma_xfer_src s) (udma_xfer_dst s) (udma_callback_ptr s) (handler_len s).

Definition set_channel (v : Z) (s : udma) : udma :=
  mkUdma (udma_error_cnt s) (udma_xfer_fail_cnt s) (udma_xfer_succ_cnt s)
    (udma_xfer_len s) (udma_channel_lock s) (udma_is_initialized s) v
    (udma_xfer_src s) (udma_xfer_dst s) (udma_callback_ptr s) (handler_len s).

Definition set_xfer_src (v : Z) (s : udma) : udma :=
  mkUdma (udma_error_cnt s) (udma_xfer_fail_cnt s) (udma_xfer_succ_cnt s)
    (udma_xfer_len s) (udma_channel_lock s) (udma_is_initialized s)
    (udma_channel s) v (udma_xfer_dst s) (udma_callback_ptr s) (handler_len s).

Definition set_xfer_dst (v : Z) (s : udma) : udma :=
  mkUdma (udma_error_cnt s) (udma_xfer_fail_cnt s) (udma_xfer_succ_cnt s)
    (udma_xfer_len s) (udma_channel_lock s) (udma_is_initialized s)
    (udma_channel s) (udma_xfer_src s) v (udma_callback_ptr s) (handler_len s).

Definition set_callback_ptr (v : Z) (s : udma) : udma :=
  mkUdma (udma_error_cnt s) (udma_xfer_fail_cnt s) (udma_xfer_succ_cnt s)
    (udma_xfer_len s) (udma_channel_lock s) (udma_is_initialized s)
    (udma_channel s) (udma_xfer_src s) (udma_xfer_dst s) v (handler_len s).

Definition set_handler_len (v : Z) (s : udma) : udma :=
  mkUdma (udma_error_cnt s) (udma_xfer_fail_cnt s) (udma_xfer_succ_cnt s)
    (udma_xfer_len s) (udma_channel_lock s) (udma_is_initialized s)
    (udma_channel s) (udma_xfer_src s) (udma_xfer_dst s)
    (udma_callback_ptr s) v.

(** ** The monad: static state and a trace of events *)

Definition M (A : Type) : Type := udma -> A * udma * list event.

Definition ret {A} (a : A) : M A := fun s => (a, s, []).

Definition bind {A B} (m : M A) (k : A -> M B) : M B :=
  fun s =>
    let '(a, s1, t1) := m s in
    let '(b, s2, t2) := k a s1 in
    (b, s2, t1 ++ t2).

Definition gets {A} (f : udma -> A) : M A := fun s => (f s, s, []).
Definition modify (f : udma -> udma) : M unit := fun s => (tt, f s, []).
Definition emit (e : event) : M unit := fun s => (tt, s, [e]).

Declare Scope udma_scope.
Delimit Scope udma_scope with udma.
Notation "x <- m ;; k" := (bind m (fun x => k))
  (at level 61, m at next level, right associativity) : udma_scope.
Notation "m ;; k" := (bind m (fun _ => k))
  (at level 61, right associativity) : udma_scope.
Open Scope udma_scope.

Definition result {A} (r : A * udma * list event) : A := fst (fst r).
Definition final {A} (r : A * udma * list event) : udma := snd (fst r).
Definition trace {A} (r : A * udma * list event) : list event := snd r.

(** ** The module *)

Section Module.

Variable lib : driverlib.

(** [ROM_uDMAErrorStatusGet] and [ROM_uDMAChannelModeGet] return what the
    controller holds, [hw]. *)
Definition ROM_uDMAErrorStatusGet (hw : Z) : M Z :=
  emit ErrorStatusGet ;; ret hw.

Definition ROM_uDMAChannelModeGet (hw chan : Z) : M Z :=
  emit (ChannelModeGet chan) ;; ret hw.

(** The guarded call that both handlers make: when [udma_callback_ptr] is
    not null, call it with [code], then set it to [NULL]. *)
Definition callback_and_clear (code : Z) : M unit :=
  cb <- gets udma_callback_ptr ;;
  if cb =? NULL then ret tt
  else emit (Callback cb code) ;; modify (set_callback_ptr NULL).

Definition uDMAErrorHandler (hw_status : Z) : M unit :=
  ui32Status <- ROM_uDMAErrorStatusGet hw_status ;;
  (if ui32Status =? 0 then ret tt
   else
     emit ErrorStatusClear ;;
     cnt <- gets udma_error_cnt ;;
     modify (set_error_cnt (u32 (cnt + 1))) ;;
     callback_and_clear 2) ;;
  modify (set_channel_lock 0).

Definition uDMAIntHandler (hw_mode : Z) : M unit :=
  chan <- gets udma_channel ;;
  ui32Mode <- ROM_uDMAChannelModeGet hw_mode chan ;;
  (if ui32Mode =? UDMA_MODE_STOP lib then
     cnt <- gets udma_xfer_succ_cnt ;;
     modify (set_xfer_succ_cnt (u32 (cnt + 1))) ;;
     cb <- gets udma_callback_ptr ;;
     xlen <- gets udma_xfer_len ;;
     if negb (cb =? NULL) && (xlen =? 0) then
       emit (Callback cb 0) ;;
       modify (set_callback_ptr NULL)
     else
       let len := if xlen >? MAX_XFER_LEN then MAX_XFER_LEN else xlen in
       modify (set_handler_len len) ;;
       modify (set_xfer_len (u32 (xlen - len))) ;;
       src <- gets udma_xfer_src ;;
       dst <- gets udma_xfer_dst ;;
       emit (ChannelTransferSet chan (UDMA_MODE_AUTO lib) src dst len) ;;
       modify (set_xfer_src (ptr_add src len)) ;;
       modify (set_xfer_dst (ptr_add dst len)) ;;
       emit (ChannelEnable chan) ;;
       emit (ChannelRequest chan)
   else
     cnt <- gets udma_xfer_fail_cnt ;;
     modify (set_xfer_fail_cnt (u32 (cnt + 1))) ;;
     callback_and_clear 1) ;;
  modify (set_channel_lock 0).

Definition init_dma_memcpy (chan : Z) : M Z :=
  emit (ChannelAttributeDisable chan
          (Z.lor (Z.lor (UDMA_ATTR_USEBURST lib) (UDMA_ATTR_ALTSELECT lib))
                 (Z.lor (UDMA_ATTR_HIGH_PRIORITY lib) (UDMA_ATTR_REQMASK lib)))) ;;
  emit (ChannelControlSet chan
          (Z.lor (Z.lor (Z.lor (UDMA_SIZE_32 lib) (UDMA_SRC_INC_32 lib))
                        (UDMA_DST_INC_32 lib))
                 (UDMA_ARB_8 lib))) ;;
  modify (set_is_initialized 1) ;;
  ret 0.

(** [__sync_bool_compare_and_swap(&udma_channel_lock, 0, 1)] *)
Definition lock_cas : M bool :=
  l <- gets udma_channel_lock ;;
  if l =? 0 then modify (set_channel_lock 1) ;; ret true else ret false.

Definition dma_memcpy (dst src len chan cb : Z) : M Z :=
  acquired <- lock_cas ;;
  if negb acquired then ret 1
  else
    initialized <- gets udma_is_initialized ;;
    (if initialized =? 0 then init_dma_memcpy chan ;; ret tt else ret tt) ;;
    modify (set_channel chan) ;;
    (if cb =? NULL then ret tt else modify (set_callback_ptr cb)) ;;
    modify (set_xfer_len (u32 len)) ;;
    xlen <- gets udma_xfer_len ;;
    let len := if xlen >? MAX_XFER_LEN then MAX_XFER_LEN else xlen in
    modify (set_xfer_len (u32 (xlen - len))) ;;
    emit (ChannelTransferSet (Z.lor chan (UDMA_PRI_SELECT lib))
            (UDMA_MODE_AUTO lib) src dst len) ;;
    modify (set_xfer_src (ptr_add src len)) ;;
    modify (set_xfer_dst (ptr_add dst len)) ;;
    emit (ChannelEnable chan) ;;
    emit (ChannelRequest chan) ;;
    ret 0.

End Module.

(** ** Interrupts and operations *)

(** The two interrupts of the controller, each with the value its handler
    reads back from the hardware. *)
Inductive irq : Type :=
| TransferDone (hw_mode : Z)
| ControllerError (hw_status : Z).

Definition handle (lib : driverlib) (i : irq) : M unit :=
  match i with
  | TransferDone hw_mode => uDMAIntHandler lib hw_mode
  | ControllerError hw_status => uDMAErrorHandler hw_status
  end.

(** The handlers run one after the other, in the order of the interrupts. *)
Fixpoint run (lib : driverlib) (irqs : list irq) : M unit :=
  match irqs with
  | [] => ret tt
  | i :: irqs' => handle lib i ;; run lib irqs'
  end.

(** Every entry point of the module. *)
Inductive op : Type :=
| OpMemcpy (dst src len chan cb : Z)
| OpInit (chan : Z)
| OpIrq (i : irq).

Definition step (lib : driverlib) (o : op) : M Z :=
  match o with
  | OpMemcpy dst src len chan cb => dma_memcpy lib dst src len chan cb
  | OpInit chan => init_dma_memcpy lib chan
  | OpIrq i => handle lib i ;; ret 0
  end.

(** A session whose chunks all complete: [dma_memcpy], then [n] transfer
    interrupts that each read the stop mode. *)
Definition session (lib : driverlib) (dst src len chan cb : Z) (n : nat)
  : M Z :=
  rc <- dma_memcpy lib dst src len chan cb ;;
  run lib (repeat (TransferDone (UDMA_MODE_STOP lib)) n) ;;
  ret rc.

(** ** Observations on traces *)

(** The lengths programmed into the controller, in order. *)
Definition armed_sizes (t : list event) : list Z :=
  flat_map (fun e => match e with
                     | ChannelTransferSet _ _ _ _ len => [len]
                     | _ => []
                     end) t.

(** The channel argument and the mode of each programmed transfer. *)
Definition armed_targets (t : list event) : list (Z * Z) :=
  flat_map (fun e => match e with
                     | ChannelTransferSet chan mode _ _ _ => [(chan, mode)]
                     | _ => []
                     end) t.

(** The channels enabled and the channels requested, in order: one of each
    per start of the hardware. *)
Definition enables (t : list event) : list Z :=
  flat_map (fun e => match e with ChannelEnable chan => [chan] | _ => [] end) t.

Definition requests (t : list event) : list Z :=
  flat_map (fun e => match e with ChannelRequest chan => [chan] | _ => [] end) t.

(** The callback invocations, function and status code, in order. *)
Definition callbacks (t : list event) : list (Z * Z) :=
  flat_map (fun e => match e with
                     | Callback fn code => [(fn, code)]
                     | _ => []
                     end) t.

(** ** The chunking the specification describes

    Chunk sizes are min(remaining, 1024) until remaining reaches 0. *)
Fixpoint spec_chunks_from (fuel : nat) (remaining : Z) : list Z :=
  match fuel with
  | O => []
  | S fuel' =>
      if remaining <=? 0 then []
      else
        let c := Z.min remaining MAX_XFER_LEN in
        c :: spec_chunks_from fuel' (remaining - c)
  end.

(** Each chunk takes at least one word, so [L] steps are enough. *)
Definition spec_chunks (L : Z) : list Z := spec_chunks_from (Z.to_nat L) L.

(** ceil(L / C) *)
Definition ceil_div (L C : Z) : Z := (L + C - 1) / C.

(** ** Vocabulary of the properties *)

(** A value that fits a [uint32_t]. *)
Definition is_u32 (x : Z) : Prop := 0 <= x < 2 ^ 32.

(** The interrupts that end a session: a completion with nothing left to
    queue, a completion in a mode other than stop, a pending controller
    error. *)
Definition terminal (lib : driverlib) (i : irq) (st : udma) : bool :=
  match i with
  | TransferDone hw_mode =>
      negb (hw_mode =? UDMA_MODE_STOP lib) || (udma_xfer_len st =? 0)
  | ControllerError hw_status => negb (hw_status =? 0)
  end.

(** Whether one of the interrupts is terminal in the state its handler
    finds, the handlers running in order from [st]. *)
Fixpoint terminal_occurs (lib : driverlib) (irqs : list irq) (st : udma)
  : bool :=
  match irqs with
  | [] => false
  | i :: irqs' =>
      terminal lib i st || terminal_occurs lib irqs' (final (handle lib i st))
  end.

(** The interrupts that report a failure whatever the state: a completion
    in a mode other than stop, a pending controller error. *)
Definition abnormal (lib : driverlib) (i : irq) : bool :=
  match i with
  | TransferDone hw_mode => negb (hw_mode =? UDMA_MODE_STOP lib)
  | ControllerError hw_status => negb (hw_status =? 0)
  end.

(** The status code each handler passes to the callback. *)
Definition status_code (lib : driverlib) (i : irq) : Z :=
  match i with
  | TransferDone hw_mode => if hw_mode =? UDMA_MODE_STOP lib then 0 else 1
  | ControllerError _ => 2
  end.

(** Two states that differ at most in the three diagnostic counters. *)
Definition same_but_counters (s1 s2 : udma) : Prop :=
  udma_xfer_len s1 = udma_xfer_len s2 /\
  udma_channel_lock s1 = udma_channel_lock s2 /\
  udma_is_initialized s1 = udma_is_initialized s2 /\
  udma_channel s1 = udma_channel s2 /\
  udma_xfer_src s1 = udma_xfer_src s2 /\
  udma_xfer_dst s1 = udma_xfer_dst s2 /\
  udma_callback_ptr s1 = udma_callback_ptr s2 /\
  handler_len s1 = handler_len s2.

(** One step of a counter: left alone, or incremented as a [uint32_t]. *)
Definition counter_step (c c' : Z) : Prop := c' = c \/ c' = u32 (c + 1).

Definition counters_step (s s' : udma) : Prop :=
  counter_step (udma_error_cnt s) (udma_error_cnt s') /\
  counter_step (udma_xfer_fail_cnt s) (udma_xfer_fail_cnt s') /\
  counter_step (udma_xfer_succ_cnt s) (udma_xfer_succ_cnt s').

(** No counter of [s'] is below its value in [s]. *)
Definition counters_le (s s' : udma) : Prop :=
  udma_error_cnt s <= udma_error_cnt s' /\
  udma_xfer_fail_cnt s <= udma_xfer_fail_cnt s' /\
  udma_xfer_succ_cnt s <= udma_xfer_succ_cnt s'.

(** Every counter can still be incremented without wrapping. *)
Definition counters_below_max (s : udma) : Prop :=
  0 <= udma_error_cnt s < 2 ^ 32 - 1 /\
  0 <= udma_xfer_fail_cnt s < 2 ^ 32 - 1 /\
  0 <= udma_xfer_succ_cnt s < 2 ^ 32 - 1.

(** ** Sequences of operations *)

(** The entry points called one after the other. *)
Fixpoint run_ops (lib : driverlib) (ops : list op) : M unit :=
  match ops with
  | [] => ret tt
  | o :: ops' => step lib o ;; run_ops lib ops'
  end.

Definition is_init_op (o : op) : bool :=
  match o with OpInit _ => true | _ => false end.

(** No direct call of [init_dma_memcpy] among the operations. *)
Definition no_direct_init (ops : list op) : bool :=
  forallb (fun o => negb (is_init_op o)) ops.

(** The channels whose control parameters were set, in order. *)
Definition configured (t : list event) : list Z :=
  flat_map (fun e => match e with
                     | ChannelControlSet chan _ => [chan]
                     | _ => []
                     end) t.

(** Source, destination and length of each programmed transfer. *)
Definition transfers (t : list event) : list (Z * Z * Z) :=
  flat_map (fun e => match e with
                     | ChannelTransferSet _ _ src dst len => [(src, dst, len)]
                     | _ => []
                     end) t.

(** Chunks laid one after the other from [src] and [dst]. *)
Fixpoint tile (src dst : Z) (sizes : list Z) : list (Z * Z * Z) :=
  match sizes with
  | [] => []
  | c :: sizes' => (src, dst, c) :: tile (ptr_add src c) (ptr_add dst c) sizes'
  end.

(** A pointer moved past each of the chunks in turn. *)
Definition advance (p : Z) (sizes : list Z) : Z := fold_left ptr_add sizes p.

Definition total (sizes : list Z) : Z := fold_right Z.add 0 sizes.

(** The interrupts that make each counter move. *)
Definition stop_completion (lib : driverlib) (i : irq) : bool :=
  match i with
  | TransferDone hw_mode => hw_mode =? UDMA_MODE_STOP lib
  | ControllerError _ => false
  end.

Definition failed_completion (lib : driverlib) (i : irq) : bool :=
  match i with
  | TransferDone hw_mode => negb (hw_mode =? UDMA_MODE_STOP lib)
  | ControllerError _ => false
  end.

Definition pending_error (i : irq) : bool :=
  match i with
  | TransferDone _ => false
  | ControllerError hw_status => negb (hw_status =? 0)
  end.

Definition count_irqs (p : irq -> bool) (irqs : list irq) : Z :=
  Z.of_nat (length (filter p irqs)).

(** ** The functions in closed form *)

Section Equations.

Variable lib : driverlib.

Ltac run_body :=
  unfold uDMAIntHandler, uDMAErrorHandler, dma_memcpy, init_dma_memcpy,
    lock_cas, callback_and_clear, ROM_uDMAChannelModeGet,
    ROM_uDMAErrorStatusGet, bind, gets, modify, emit, ret; cbn.

Lemma chunk_is_min (x : Z) :
  (if x >? MAX_XFER_LEN then MAX_XFER_LEN else x) = Z.min x MAX_XFER_LEN.
Proof.
  unfold MAX_XFER_LEN. destruct (Z.gtb_spec x 1024); lia.
Qed.

(** The completion handler, stop mode, a callback stored and nothing left:
    the success path. *)
Lemma uDMAIntHandler_success (st : udma) :
  udma_callback_ptr st <> NULL ->
  udma_xfer_len st = 0 ->
  uDMAIntHandler lib (UDMA_MODE_STOP lib) st =
  (tt,
   set_channel_lock 0
     (set_callback_ptr NULL
        (set_xfer_succ_cnt (u32 (udma_xfer_succ_cnt st + 1)) st)),
   [ChannelModeGet (udma_channel st); Callback (udma_callback_ptr st) 0]).
Proof.
  intros Hcb Hlen. destruct st; cbn in *. run_body.
  rewrite Z.eqb_refl; cbn.
  destruct (Z.eqb_spec udma_callback_ptr0 NULL); [contradiction|].
  subst; reflexivity.
Qed.

(** The completion handler, stop mode, otherwise: the next chunk. *)
Lemma uDMAIntHandler_continue (st : udma) :
  udma_callback_ptr st = NULL \/ udma_xfer_len st <> 0 ->
  uDMAIntHandler lib (UDMA_MODE_STOP lib) st =
  let len := Z.min (udma_xfer_len st) MAX_XFER_LEN in
  (tt,
   set_channel_lock 0
     (set_xfer_dst (ptr_add (udma_xfer_dst st) len)
        (set_xfer_src (ptr_add (udma_xfer_src st) len)
           (set_xfer_len (u32 (udma_xfer_len st - len))
              (set_handler_len len
                 (set_xfer_succ_cnt (u32 (udma_xfer_succ_cnt st + 1)) st))))),
   [ChannelModeGet (udma_channel st);
    ChannelTransferSet (udma_channel st) (UDMA_MODE_AUTO lib)
      (udma_xfer_src st) (udma_xfer_dst st) len;
    ChannelEnable (udma_channel st);
    ChannelRequest (udma_channel st)]).
Proof.
  intros H. destruct st; cbn in *. run_body.
  rewrite Z.eqb_refl; cbn. rewrite <- chunk_is_min.
  destruct (Z.eqb_spec udma_callback_ptr0 NULL);
    destruct (Z.eqb_spec udma_xfer_len0 0); cbn; try reflexivity.
  exfalso; destruct H; congruence.
Qed.

(** The completion handler, any other mode: the failure path. *)
Lemma uDMAIntHandler_fail (st : udma) (hw_mode : Z) :
  hw_mode <> UDMA_MODE_STOP lib ->
  uDMAIntHandler lib hw_mode st =
  (tt,
   set_channel_lock 0
     (set_callback_ptr NULL
        (set_xfer_fail_cnt (u32 (udma_xfer_fail_cnt st + 1)) st)),
   ChannelModeGet (udma_channel st) ::
   (if udma_callback_ptr st =? NULL then []
    else [Callback (udma_callback_ptr st) 1])).
Proof.
  intros H. destruct st; cbn in *. run_body.
  destruct (Z.eqb_spec hw_mode (UDMA_MODE_STOP lib)); [contradiction|]; cbn.
  destruct (Z.eqb_spec udma_callback_ptr0 NULL); cbn; subst; reflexivity.
Qed.

(** The error handler with no error pending only releases the lock. *)
Lemma uDMAErrorHandler_idle (st : udma) :
  uDMAErrorHandler 0 st = (tt, set_channel_lock 0 st, [ErrorStatusGet]).
Proof. reflexivity. Qed.

(** The error handler with an error pending: the error path. *)
Lemma uDMAErrorHandler_error (st : udma) (hw_status : Z) :
  hw_status <> 0 ->
  uDMAErrorHandler hw_status st =
  (tt,
   set_channel_lock 0
     (set_callback_ptr NULL
        (set_error_cnt (u32 (udma_error_cnt st + 1)) st)),
   ErrorStatusGet :: ErrorStatusClear ::
   (if udma_callback_ptr st =? NULL then []
    else [Callback (udma_callback_ptr st) 2])).
Proof.
  intros H. destruct st; cbn in *. run_body.
  destruct (Z.eqb_spec hw_status 0); [contradiction|]; cbn.
  destruct (Z.eqb_spec udma_callback_ptr0 NULL); cbn; subst; reflexivity.
Qed.

Lemma init_dma_memcpy_eq (st : udma) (chan : Z) :
  init_dma_memcpy lib chan st =
  (0, set_is_initialized 1 st,
   [ChannelAttributeDisable chan
      (Z.lor (Z.lor (UDMA_ATTR_USEBURST lib) (UDMA_ATTR_ALTSELECT lib))
             (Z.lor (UDMA_ATTR_HIGH_PRIORITY lib) (UDMA_ATTR_REQMASK lib)));
    ChannelControlSet chan
      (Z.lor (Z.lor (Z.lor (UDMA_SIZE_32 lib) (UDMA_SRC_INC_32 lib))
                    (UDMA_DST_INC_32 lib))
             (UDMA_ARB_8 lib))]).
Proof. reflexivity. Qed.

(** The initiator when the lock is taken: nothing happens. *)
Lemma dma_memcpy_busy (st : udma) (dst src len chan cb : Z) :
  udma_channel_lock st <> 0 ->
  dma_memcpy lib dst src len chan cb st = (1, st, []).
Proof.
  intros H. destruct st; cbn in *. run_body.
  destruct (Z.eqb_spec udma_channel_lock0 0); [contradiction|]. reflexivity.
Qed.

(** The initiator when the lock is free. *)
Lemma dma_memcpy_start (st : udma) (dst src len chan cb : Z) :
  udma_channel_lock st = 0 ->
  dma_memcpy lib dst src len chan cb st =
  let c := Z.min (u32 len) MAX_XFER_LEN in
  (0,
   mkUdma (udma_error_cnt st) (udma_xfer_fail_cnt st) (udma_xfer_succ_cnt st)
     (u32 (u32 len - c)) 1
     (if udma_is_initialized st =? 0 then 1 else udma_is_initialized st)
     chan (ptr_add src c) (ptr_add dst c)
     (if cb =? NULL then udma_callback_ptr st else cb)
     (handler_len st),
   trace (if udma_is_initialized st =? 0
          then init_dma_memcpy lib chan st else ret 0 st) ++
   [ChannelTransferSet (Z.lor chan (UDMA_PRI_SELECT lib)) (UDMA_MODE_AUTO lib)
      src dst c;
    ChannelEnable chan;
    ChannelRequest chan]).
Proof.
  intros H. destruct st; cbn in *. subst. run_body.
  rewrite <- chunk_is_min.
  destruct (Z.eqb_spec udma_is_initialized0 0);
    destruct (Z.eqb_spec cb NULL); cbn; reflexivity.
Qed.

End Equations.

(** ** Sequencing *)

Section Runs.

Variable lib : driverlib.

Lemma final_run_cons (i : irq) (irqs : list irq) (st : udma) :
  final (run lib (i :: irqs) st) = final (run lib irqs (final (handle lib i st))).
Proof.
  cbn [run]. unfold bind.
  destruct (handle lib i st) as [[[] s1] t1]; cbn.
  destruct (run lib irqs s1) as [[[] s2] t2]; reflexivity.
Qed.

Lemma trace_run_cons (i : irq) (irqs : list irq) (st : udma) :
  trace (run lib (i :: irqs) st) =
  trace (handle lib i st) ++ trace (run lib irqs (final (handle lib i st))).
Proof.
  cbn [run]. unfold bind.
  destruct (handle lib i st) as [[[] s1] t1]; cbn.
  destruct (run lib irqs s1) as [[[] s2] t2]; reflexivity.
Qed.

Lemma final_run_app (a b : list irq) (st : udma) :
  final (run lib (a ++ b) st) = final (run lib b (final (run lib a st))).
Proof.
  revert st; induction a as [|i a IH]; intros st; [reflexivity|].
  rewrite <- app_comm_cons, !final_run_cons. apply IH.
Qed.

Lemma trace_run_app (a b : list irq) (st : udma) :
  trace (run lib (a ++ b) st) =
  trace (run lib a st) ++ trace (run lib b (final (run lib a st))).
Proof.
  revert st; induction a as [|i a IH]; intros st; [reflexivity|].
  rewrite <- app_comm_cons, !trace_run_cons, final_run_cons, IH.
  now rewrite app_assoc.
Qed.

Lemma result_session (dst src len chan cb : Z) (n : nat) (st : udma) :
  result (session lib dst src len chan cb n st) =
  result (dma_memcpy lib dst src len chan cb st).
Proof.
  unfold session, bind.
  destruct (dma_memcpy lib dst src len chan cb st) as [[rc s1] t1]; cbn.
  destruct (run lib _ s1) as [[[] s2] t2]; reflexivity.
Qed.

Lemma final_session (dst src len chan cb : Z) (n : nat) (st : udma) :
  final (session lib dst src len chan cb n st) =
  final (run lib (repeat (TransferDone (UDMA_MODE_STOP lib)) n)
           (final (dma_memcpy lib dst src len chan cb st))).
Proof.
  unfold session, bind.
  destruct (dma_memcpy lib dst src len chan cb st) as [[rc s1] t1]; cbn.
  destruct (run lib _ s1) as [[[] s2] t2]; reflexivity.
Qed.

Lemma trace_session (dst src len chan cb : Z) (n : nat) (st : udma) :
  trace (session lib dst src len chan cb n st) =
  trace (dma_memcpy lib dst src len chan cb st) ++
  trace (run lib (repeat (TransferDone (UDMA_MODE_STOP lib)) n)
           (final (dma_memcpy lib dst src len chan cb st))).
Proof.
  unfold session, bind.
  destruct (dma_memcpy lib dst src len chan cb st) as [[rc s1] t1]; cbn.
  destruct (run lib _ s1) as [[[] s2] t2]; cbn. now rewrite app_nil_r.
Qed.

End Runs.

(** Splits an interrupt into the paths of its handler and rewrites the
    handler with the equation of each path. *)
Ltac handler_paths lib i st :=
  let hw := fresh "hw" in
  let Hm := fresh "Hmode" in
  let Hcb := fresh "Hcb" in
  let Hx := fresh "Hlen" in
  destruct i as [hw|hw]; cbn [handle];
  [ destruct (Z.eq_dec hw (UDMA_MODE_STOP lib)) as [->|Hm];
    [ destruct (Z.eq_dec (udma_callback_ptr st) NULL) as [Hcb|Hcb];
      [ rewrite (uDMAIntHandler_continue lib st (or_introl Hcb))
      | destruct (Z.eq_dec (udma_xfer_len st) 0) as [Hx|Hx];
        [ rewrite (uDMAIntHandler_success lib st Hcb Hx)
        | rewrite (uDMAIntHandler_continue lib st (or_intror Hx)) ] ]
    | rewrite (uDMAIntHandler_fail lib st hw Hm) ]
  | destruct (Z.eq_dec hw 0) as [->|Hm];
    [ rewrite uDMAErrorHandler_idle
    | rewrite (uDMAErrorHandler_error st hw Hm) ] ].

(** ** The busy path *)

(** C2: a call of [dma_memcpy] while the lock is held ([udma_channel_lock]
    is 1) returns the busy code 1, makes no driver call and leaves every
    static variable as it was, in particular the source and destination
    cursors, the remaining length, the callback pointer and the channel. *)
Theorem C2_busy_call_changes_nothing
  (lib : driverlib) (st : udma) (dst src len chan cb : Z) :
  udma_channel_lock st = 1 ->
  let r := dma_memcpy lib dst src len chan cb st in
  result r = 1 /\ trace r = [] /\ final r = st /\
  udma_xfer_src (final r) = udma_xfer_src st /\
  udma_xfer_dst (final r) = udma_xfer_dst st /\
  udma_xfer_len (final r) = udma_xfer_len st /\
  udma_callback_ptr (final r) = udma_callback_ptr st /\
  udma_channel (final r) = udma_channel st.
Proof.
  intros Hlock r. subst r.
  rewrite dma_memcpy_busy by (rewrite Hlock; discriminate).
  cbn. repeat split; reflexivity.
Qed.

(** The state in which a first transfer of 2500 words has just been
    started, and a second call arrives. *)
Lemma C2_busy_witness :
  let st := final (dma_memcpy tivaware 4096 8192 2500 5 77 udma_init) in
  let r := dma_memcpy tivaware 20480 24576 300 6 99 st in
  result r = 1 /\ trace r = [] /\ final r = st /\
  udma_xfer_src (final r) = udma_xfer_src st /\
  udma_xfer_dst (final r) = udma_xfer_dst st /\
  udma_xfer_len (final r) = udma_xfer_len st /\
  udma_callback_ptr (final r) = udma_callback_ptr st /\
  udma_channel (final r) = udma_channel st.
Proof.
  apply (C2_busy_call_changes_nothing tivaware
           (final (dma_memcpy tivaware 4096 8192 2500 5 77 udma_init))
           20480 24576 300 6 99).
  reflexivity.
Defined.

(** ** The lock at handler exit *)

Lemma handle_releases_lock (lib : driverlib) (i : irq) (st : udma) :
  udma_channel_lock (final (handle lib i st)) = 0.
Proof. handler_paths lib i st; reflexivity. Qed.

Lemma run_releases_lock (lib : driverlib) (irqs : list irq) (st : udma) :
  irqs <> [] -> udma_channel_lock (final (run lib irqs st)) = 0.
Proof.
  revert st; induction irqs as [|i irqs IH]; intros st H; [congruence|].
  rewrite final_run_cons. destruct irqs as [|j irqs].
  - apply handle_releases_lock.
  - apply IH. discriminate.
Qed.

(** C6: both interrupt handlers release the lock at exit whatever path
    they took: after the completion handler [udma_channel_lock] is 0 for
    every mode read and every state, the branch that queues the next chunk
    included, and after the error handler it is 0 for every status read,
    zero included. *)
Theorem C6_handlers_release_lock (lib : driverlib) (st : udma) (hw : Z) :
  udma_channel_lock (final (uDMAIntHandler lib hw st)) = 0 /\
  udma_channel_lock (final (uDMAErrorHandler hw st)) = 0.
Proof.
  split.
  - apply (handle_releases_lock lib (TransferDone hw)).
  - apply (handle_releases_lock lib (ControllerError hw)).
Qed.

(** The branch that queues a chunk: 2500 words, first completion.  The
    second chunk is requested and the lock is free although 452 words are
    still to be queued. *)
Example lock_free_after_continuation :
  let st := final (dma_memcpy tivaware 4096 8192 2500 5 77 udma_init) in
  let r := uDMAIntHandler tivaware 0 st in
  udma_channel_lock st = 1 /\
  armed_sizes (trace r) = [1024] /\ requests (trace r) = [5] /\
  udma_xfer_len (final r) = 452 /\ udma_channel_lock (final r) = 0.
Proof. repeat split. Qed.

(** ** Terminal events *)

Lemma handle_terminal (lib : driverlib) (i : irq) (st : udma) :
  terminal lib i st = true ->
  udma_channel_lock (final (handle lib i st)) = 0 /\
  udma_callback_ptr (final (handle lib i st)) = NULL.
Proof.
  intros Ht. split; [apply handle_releases_lock|]. revert Ht.
  handler_paths lib i st; cbn [terminal final fst snd]; intros Ht;
    try reflexivity.
  - exact Hcb.
  - rewrite Z.eqb_refl in Ht; cbn in Ht.
    apply Z.eqb_eq in Ht. contradiction.
  - discriminate.
Qed.

(** C4: after a terminal handler event, that is a completion in stop mode
    with remaining length 0 (success), a completion in any other mode
    (fail), or an error interrupt with a pending error status (error),
    [udma_channel_lock] is 0 and [udma_callback_ptr] is [NULL]. *)
Theorem C4_terminal_event_frees_and_clears
  (lib : driverlib) (st : udma) (hw : Z) :
  (udma_xfer_len st = 0 ->
   let st' := final (uDMAIntHandler lib (UDMA_MODE_STOP lib) st) in
   udma_channel_lock st' = 0 /\ udma_callback_ptr st' = NULL) /\
  (hw <> UDMA_MODE_STOP lib ->
   let st' := final (uDMAIntHandler lib hw st) in
   udma_channel_lock st' = 0 /\ udma_callback_ptr st' = NULL) /\
  (hw <> 0 ->
   let st' := final (uDMAErrorHandler hw st) in
   udma_channel_lock st' = 0 /\ udma_callback_ptr st' = NULL).
Proof.
  repeat split.
  - apply (handle_releases_lock lib (TransferDone _)).
  - apply (handle_terminal lib (TransferDone (UDMA_MODE_STOP lib))).
    cbn. rewrite H, Z.eqb_refl. reflexivity.
  - apply (handle_releases_lock lib (TransferDone _)).
  - apply (handle_terminal lib (TransferDone hw)).
    cbn. destruct (Z.eqb_spec hw (UDMA_MODE_STOP lib)); [contradiction|].
    reflexivity.
  - apply (handle_releases_lock lib (ControllerError _)).
  - apply (handle_terminal lib (ControllerError hw)).
    cbn. destruct (Z.eqb_spec hw 0); [contradiction|]. reflexivity.
Qed.

(** The three terminal paths on running sessions: 500 words after the
    only chunk (success), 2500 words with mode 1 read at the first
    completion (fail), 2500 words with error status 1 (error). *)
Lemma C4_terminal_witness :
  let one := final (dma_memcpy tivaware 4096 8192 500 5 77 udma_init) in
  let big := final (dma_memcpy tivaware 4096 8192 2500 5 77 udma_init) in
  (udma_channel_lock (final (uDMAIntHandler tivaware 0 one)) = 0 /\
   udma_callback_ptr (final (uDMAIntHandler tivaware 0 one)) = NULL) /\
  (udma_channel_lock (final (uDMAIntHandler tivaware 1 big)) = 0 /\
   udma_callback_ptr (final (uDMAIntHandler tivaware 1 big)) = NULL) /\
  (udma_channel_lock (final (uDMAErrorHandler 1 big)) = 0 /\
   udma_callback_ptr (final (uDMAErrorHandler 1 big)) = NULL).
Proof.
  intros one big.
  split; [|split].
  - apply (proj1 (C4_terminal_event_frees_and_clears tivaware one 1)).
    reflexivity.
  - apply (proj1 (proj2 (C4_terminal_event_frees_and_clears tivaware big 1))).
    discriminate.
  - apply (proj2 (proj2 (C4_terminal_event_frees_and_clears tivaware big 1))).
    discriminate.
Defined.

(** ** The initiator *)

Lemma armed_sizes_app (a b : list event) :
  armed_sizes (a ++ b) = armed_sizes a ++ armed_sizes b.
Proof. apply flat_map_app. Qed.

Lemma armed_targets_app (a b : list event) :
  armed_targets (a ++ b) = armed_targets a ++ armed_targets b.
Proof. apply flat_map_app. Qed.

Lemma enables_app (a b : list event) :
  enables (a ++ b) = enables a ++ enables b.
Proof. apply flat_map_app. Qed.

Lemma requests_app (a b : list event) :
  requests (a ++ b) = requests a ++ requests b.
Proof. apply flat_map_app. Qed.

Lemma callbacks_app (a b : list event) :
  callbacks (a ++ b) = callbacks a ++ callbacks b.
Proof. apply flat_map_app. Qed.

(** What a successful call of the initiator shows on the trace, whether or
    not it had to configure the channel first. *)
Lemma dma_memcpy_start_trace
  (lib : driverlib) (st : udma) (dst src len chan cb : Z) :
  udma_channel_lock st = 0 ->
  let t := trace (dma_memcpy lib dst src len chan cb st) in
  armed_sizes t = [Z.min (u32 len) MAX_XFER_LEN] /\
  armed_targets t =
    [(Z.lor chan (UDMA_PRI_SELECT lib), UDMA_MODE_AUTO lib)] /\
  enables t = [chan] /\ requests t = [chan] /\ callbacks t = [].
Proof.
  intros Hlock t. subst t. rewrite dma_memcpy_start by assumption.
  cbn [trace snd].
  rewrite armed_sizes_app, armed_targets_app, enables_app, requests_app,
    callbacks_app.
  destruct (udma_is_initialized st =? 0); repeat split.
Qed.

(** C9: called with [len] 0 while the lock is free, [dma_memcpy] takes the
    lock, programs exactly one transfer, of length 0, enables and requests
    the channel once, leaves [udma_xfer_len] at 0 and returns 0. *)
Theorem C9_zero_length_is_armed
  (lib : driverlib) (st : udma) (dst src chan cb : Z) :
  udma_channel_lock st = 0 ->
  let r := dma_memcpy lib dst src 0 chan cb st in
  result r = 0 /\
  udma_channel_lock (final r) = 1 /\
  udma_xfer_len (final r) = 0 /\
  armed_sizes (trace r) = [0] /\
  enables (trace r) = [chan] /\
  requests (trace r) = [chan].
Proof.
  intros Hlock r.
  destruct (dma_memcpy_start_trace lib st dst src 0 chan cb Hlock)
    as (Hs & _ & He & Hr & _).
  subst r. split; [|split; [|split; [|split; [|split]]]];
    try assumption; rewrite dma_memcpy_start by assumption; reflexivity.
Qed.

Lemma C9_zero_length_witness :
  let r := dma_memcpy tivaware 4096 8192 0 5 77 udma_init in
  result r = 0 /\
  udma_channel_lock (final r) = 1 /\
  udma_xfer_len (final r) = 0 /\
  armed_sizes (trace r) = [0] /\
  enables (trace r) = [5] /\
  requests (trace r) = [5].
Proof.
  apply (C9_zero_length_is_armed tivaware udma_init 4096 8192 5 77).
  reflexivity.
Defined.

(** ** Channel and mode of the programmed transfers *)

Lemma handle_keeps_channel (lib : driverlib) (i : irq) (st : udma) :
  udma_channel (final (handle lib i st)) = udma_channel st.
Proof. handler_paths lib i st; reflexivity. Qed.

Lemma handle_armed_targets (lib : driverlib) (i : irq) (st : udma) :
  armed_targets (trace (handle lib i st)) = [] \/
  armed_targets (trace (handle lib i st)) =
    [(udma_channel st, UDMA_MODE_AUTO lib)].
Proof.
  handler_paths lib i st; cbn [trace snd];
    try (right; reflexivity); try (left; reflexivity);
    destruct (udma_callback_ptr st =? NULL); left; reflexivity.
Qed.

Lemma run_armed_targets (lib : driverlib) (irqs : list irq) (st : udma) :
  exists n : nat,
    armed_targets (trace (run lib irqs st)) =
    repeat (udma_channel st, UDMA_MODE_AUTO lib) n.
Proof.
  revert st; induction irqs as [|i irqs IH]; intros st.
  - exists 0%nat. reflexivity.
  - rewrite trace_run_cons, armed_targets_app.
    destruct (IH (final (handle lib i st))) as [n Hn].
    rewrite Hn, handle_keeps_channel.
    destruct (handle_armed_targets lib i st) as [-> | ->].
    + exists n. reflexivity.
    + exists (S n). reflexivity.
Qed.

(** C7: in every session the initiator programs the first chunk on
    [chan | UDMA_PRI_SELECT] in mode [UDMA_MODE_AUTO], and every chunk the
    completion handler queues afterwards is programmed on the stored
    channel id, which is [chan] itself, in the same mode
    [UDMA_MODE_AUTO]. *)
Theorem C7_first_chunk_select_then_plain_channel
  (lib : driverlib) (st : udma) (dst src len chan cb : Z)
  (irqs : list irq) :
  udma_channel_lock st = 0 ->
  let r := dma_memcpy lib dst src len chan cb st in
  armed_targets (trace r) =
    [(Z.lor chan (UDMA_PRI_SELECT lib), UDMA_MODE_AUTO lib)] /\
  udma_channel (final r) = chan /\
  exists n : nat,
    armed_targets (trace (run lib irqs (final r))) =
    repeat (chan, UDMA_MODE_AUTO lib) n.
Proof.
  intros Hlock r.
  destruct (dma_memcpy_start_trace lib st dst src len chan cb Hlock)
    as (_ & Ht & _).
  assert (Hc : udma_channel (final r) = chan)
    by (subst r; rewrite dma_memcpy_start by assumption; reflexivity).
  split; [exact Ht|]. split; [exact Hc|].
  destruct (run_armed_targets lib irqs (final r)) as [n Hn].
  exists n. rewrite Hn, Hc. reflexivity.
Qed.

(** 2500 words on channel 5, then three completions in stop mode. *)
Lemma C7_channel_witness :
  let r := dma_memcpy tivaware 4096 8192 2500 5 77 udma_init in
  armed_targets (trace r) = [(Z.lor 5 (UDMA_PRI_SELECT tivaware), 2)] /\
  udma_channel (final r) = 5 /\
  exists n : nat,
    armed_targets
      (trace (run tivaware (repeat (TransferDone 0) 3) (final r))) =
    repeat (5, 2) n.
Proof.
  apply (C7_first_chunk_select_then_plain_channel tivaware udma_init
           4096 8192 2500 5 77 (repeat (TransferDone 0) 3)).
  reflexivity.
Defined.

Example continuation_targets :
  armed_targets
    (trace (run tivaware (repeat (TransferDone 0) 3)
              (final (dma_memcpy tivaware 4096 8192 2500 5 77 udma_init)))) =
  [(5, 2); (5, 2)].
Proof. reflexivity. Qed.

(** ** The callback pointer across sessions *)

(** C8: [dma_memcpy] called with a [NULL] callback leaves
    [udma_callback_ptr] as it was instead of clearing it; when the pointer
    a previous session stored is still there, the handlers of the new
    session call it: the completion handler with code 0 once nothing is
    left to queue, or with code 1 on another mode, the error handler with
    code 2. *)
Theorem C8_null_callback_keeps_stale_pointer
  (lib : driverlib) (st : udma) (dst src len chan : Z) (hw : Z) :
  udma_channel_lock st = 0 ->
  let st' := final (dma_memcpy lib dst src len chan NULL st) in
  udma_callback_ptr st' = udma_callback_ptr st /\
  (udma_callback_ptr st <> NULL ->
   (u32 len <= MAX_XFER_LEN ->
    callbacks (trace (uDMAIntHandler lib (UDMA_MODE_STOP lib) st')) =
      [(udma_callback_ptr st, 0)]) /\
   (hw <> UDMA_MODE_STOP lib ->
    callbacks (trace (uDMAIntHandler lib hw st')) =
      [(udma_callback_ptr st, 1)]) /\
   (hw <> 0 ->
    callbacks (trace (uDMAErrorHandler hw st')) =
      [(udma_callback_ptr st, 2)])).
Proof.
  intros Hlock st'.
  assert (Hptr : udma_callback_ptr st' = udma_callback_ptr st)
    by (subst st'; rewrite dma_memcpy_start by assumption; reflexivity).
  split; [exact Hptr|]. intros Hstale.
  assert (Hcb : udma_callback_ptr st' <> NULL) by (rewrite Hptr; exact Hstale).
  split; [|split].
  - intros Hlen.
    assert (Hx : udma_xfer_len st' = 0).
    { subst st'. rewrite dma_memcpy_start by assumption. cbn.
      rewrite Z.min_l by exact Hlen. rewrite Z.sub_diag. reflexivity. }
    rewrite (uDMAIntHandler_success lib st' Hcb Hx). cbn.
    rewrite Hptr. reflexivity.
  - intros Hm. rewrite (uDMAIntHandler_fail lib st' hw Hm). cbn.
    destruct (Z.eqb_spec (udma_callback_ptr st') NULL); [contradiction|].
    cbn. rewrite Hptr. reflexivity.
  - intros Hs. rewrite (uDMAErrorHandler_error st' hw Hs). cbn.
    destruct (Z.eqb_spec (udma_callback_ptr st') NULL); [contradiction|].
    cbn. rewrite Hptr. reflexivity.
Qed.

(** A state the module reaches with a pointer left behind: a transfer of
    2500 words with callback 77, whose first completion queues the second
    chunk and frees the lock.  A transfer of 300 words started there with a
    [NULL] callback ends with calls of 77. *)
Lemma C8_stale_witness :
  let st :=
    final (session tivaware 4096 8192 2500 5 77 1 udma_init) in
  let st' := final (dma_memcpy tivaware 20480 24576 300 6 NULL st) in
  udma_callback_ptr st' = 77 /\
  callbacks (trace (uDMAIntHandler tivaware 0 st')) = [(77, 0)] /\
  callbacks (trace (uDMAIntHandler tivaware 1 st')) = [(77, 1)] /\
  callbacks (trace (uDMAErrorHandler 1 st')) = [(77, 2)].
Proof.
  intros st st'.
  pose proof (C8_null_callback_keeps_stale_pointer tivaware st
                20480 24576 300 6 1 eq_refl) as [Hptr Hcalls].
  split; [exact Hptr|].
  destruct Hcalls as (H0 & H1 & H2); [discriminate|].
  split; [apply H0; discriminate|].
  split; [apply H1; discriminate|apply H2; discriminate].
Defined.

(** ** The remaining length *)

Lemma u32_small (x : Z) : is_u32 x -> u32 x = x.
Proof. unfold is_u32, u32. intros H. apply Z.mod_small. exact H. Qed.

Lemma u32_range (x : Z) : is_u32 (u32 x).
Proof. unfold is_u32, u32. apply Z.mod_pos_bound. reflexivity. Qed.

Lemma chunk_sub_exact (x : Z) :
  is_u32 x ->
  u32 (x - Z.min x MAX_XFER_LEN) = x - Z.min x MAX_XFER_LEN /\
  0 <= x - Z.min x MAX_XFER_LEN <= x.
Proof.
  intros H. unfold is_u32, MAX_XFER_LEN in *.
  split; [apply u32_small; unfold is_u32|]; lia.
Qed.

Lemma handle_xfer_len (lib : driverlib) (i : irq) (st : udma) :
  is_u32 (udma_xfer_len st) ->
  let x := udma_xfer_len st in
  let x' := udma_xfer_len (final (handle lib i st)) in
  (x' = x \/ x' = x - Z.min x MAX_XFER_LEN) /\ 0 <= x' <= x.
Proof.
  intros Hx. destruct (chunk_sub_exact _ Hx) as [He Hb].
  unfold is_u32 in Hx.
  handler_paths lib i st; cbn [final fst snd set_channel_lock
    set_callback_ptr set_xfer_succ_cnt set_xfer_fail_cnt set_error_cnt
    set_xfer_dst set_xfer_src set_xfer_len set_handler_len udma_xfer_len];
    try (split; [left; reflexivity|lia]);
    rewrite He; (split; [right; reflexivity|lia]).
Qed.

Lemma run_xfer_len (lib : driverlib) (irqs : list irq) (st : udma) :
  is_u32 (udma_xfer_len st) ->
  0 <= udma_xfer_len (final (run lib irqs st)) <= udma_xfer_len st.
Proof.
  revert st; induction irqs as [|i irqs IH]; intros st Hx.
  - cbn. unfold is_u32 in Hx. lia.
  - rewrite final_run_cons.
    destruct (handle_xfer_len lib i st Hx) as [_ Hb].
    assert (Hx' : is_u32 (udma_xfer_len (final (handle lib i st))))
      by (unfold is_u32 in *; lia).
    specialize (IH _ Hx'). lia.
Qed.

(** C10: [udma_xfer_len] never wraps.  The initiator stores the length as
    a [uint32_t] and subtracts min(that, 1024) from it; the completion
    handler either leaves the remaining length alone or subtracts
    min(remaining, 1024) from it; the error handler does not touch it.  The
    amount subtracted is never more than the current value, so the 32-bit
    subtraction is the exact one, and across any sequence of handler
    invocations after a start the remaining length does not increase. *)
Theorem C10_remaining_length_never_wraps
  (lib : driverlib) (st : udma) (dst src len chan cb hw : Z)
  (irqs : list irq) :
  (udma_channel_lock st = 0 ->
   let x := u32 len in
   let x' := udma_xfer_len (final (dma_memcpy lib dst src len chan cb st)) in
   x' = x - Z.min x MAX_XFER_LEN /\ Z.min x MAX_XFER_LEN <= x /\
   0 <= x' <= x) /\
  (is_u32 (udma_xfer_len st) ->
   let x := udma_xfer_len st in
   let x' := udma_xfer_len (final (uDMAIntHandler lib hw st)) in
   (x' = x \/ x' = x - Z.min x MAX_XFER_LEN) /\
   Z.min x MAX_XFER_LEN <= x /\ 0 <= x' <= x) /\
  udma_xfer_len (final (uDMAErrorHandler hw st)) = udma_xfer_len st /\
  (is_u32 (udma_xfer_len st) ->
   0 <= udma_xfer_len (final (run lib irqs st)) <= udma_xfer_len st).
Proof.
  split; [|split; [|split]].
  - intros Hlock x x'. subst x'.
    rewrite dma_memcpy_start by assumption. cbn [final fst snd udma_xfer_len].
    destruct (chunk_sub_exact x (u32_range len)) as [He Hb].
    fold x. rewrite He. repeat split; lia.
  - intros Hx x x'.
    destruct (handle_xfer_len lib (TransferDone hw) st Hx) as [Hs Hb].
    split; [exact Hs|]. split; [|exact Hb].
    unfold is_u32 in Hx. subst x. lia.
  - destruct (Z.eq_dec hw 0) as [->|Hs];
      [rewrite uDMAErrorHandler_idle
      |rewrite (uDMAErrorHandler_error st hw Hs)]; reflexivity.
  - apply run_xfer_len.
Qed.

(** From the start of 2500 words: the first chunk leaves 1476, the next
    completion 452, and three completions later nothing more than that. *)
Lemma C10_remaining_length_witness :
  let st := final (dma_memcpy tivaware 4096 8192 2500 5 77 udma_init) in
  (let x := u32 2500 in
   let x' := udma_xfer_len st in
   x' = x - Z.min x MAX_XFER_LEN /\ Z.min x MAX_XFER_LEN <= x /\
   0 <= x' <= x) /\
  (let x := udma_xfer_len st in
   let x' := udma_xfer_len (final (uDMAIntHandler tivaware 0 st)) in
   (x' = x \/ x' = x - Z.min x MAX_XFER_LEN) /\
   Z.min x MAX_XFER_LEN <= x /\ 0 <= x' <= x) /\
  0 <= udma_xfer_len
         (final (run tivaware (repeat (TransferDone 0) 3) st))
    <= udma_xfer_len st.
Proof.
  intros st.
  split; [|split].
  - apply (proj1 (C10_remaining_length_never_wraps tivaware udma_init
                    4096 8192 2500 5 77 0 [])).
    reflexivity.
  - apply (proj1 (proj2 (C10_remaining_length_never_wraps tivaware st
                           4096 8192 2500 5 77 0 []))).
    unfold is_u32. vm_compute. split; [discriminate|reflexivity].
  - apply (proj2 (proj2 (proj2 (C10_remaining_length_never_wraps tivaware st
             4096 8192 2500 5 77 0 (repeat (TransferDone 0) 3))))).
    unfold is_u32. vm_compute. split; [discriminate|reflexivity].
Defined.

(** ** The diagnostic counters *)

Lemma counter_step_le (c c' : Z) :
  0 <= c < 2 ^ 32 - 1 -> counter_step c c' -> c <= c'.
Proof.
  intros Hc [-> | ->]; [lia|].
  rewrite u32_small by (unfold is_u32; lia). lia.
Qed.

Lemma step_counters_step (lib : driverlib) (o : op) (st : udma) :
  counters_step st (final (step lib o st)).
Proof.
  unfold counters_step, counter_step.
  destruct o as [dst src len chan cb | chan | i]; cbn [step].
  - destruct (Z.eq_dec (udma_channel_lock st) 0) as [H|H].
    + rewrite dma_memcpy_start by assumption. cbn. auto.
    + rewrite dma_memcpy_busy by assumption. cbn. auto.
  - rewrite init_dma_memcpy_eq. cbn. auto.
  - unfold bind. destruct (handle lib i st) as [[[] s1] t1] eqn:E.
    cbn [ret final fst snd].
    change s1 with (final (tt, s1, t1)). rewrite <- E. clear E s1 t1.
    handler_paths lib i st; cbn; auto.
Qed.

(** The counters take no part in any decision: on two states that differ
    only in them, an operation returns the same code, makes the same
    driver calls and callback calls, and leaves states that again differ
    only in the counters. *)
Lemma step_ignores_counters (lib : driverlib) (o : op) (s1 s2 : udma) :
  same_but_counters s1 s2 ->
  result (step lib o s1) = result (step lib o s2) /\
  trace (step lib o s1) = trace (step lib o s2) /\
  same_but_counters (final (step lib o s1)) (final (step lib o s2)).
Proof.
  unfold same_but_counters.
  destruct s1, s2; cbn.
  intros (? & ? & ? & ? & ? & ? & ? & ?); subst.
  destruct o as [dst src len chan cb | chan | [hw|hw]]; cbn [step handle];
    unfold uDMAIntHandler, uDMAErrorHandler, dma_memcpy, init_dma_memcpy,
      lock_cas, callback_and_clear, ROM_uDMAChannelModeGet,
      ROM_uDMAErrorStatusGet, bind, gets, modify, emit, ret; cbn;
    repeat match goal with
           | |- context [?a =? ?b] => destruct (a =? b); cbn
           end;
    repeat split.
Qed.

(** Each completion in stop mode counts one success, modulo 2^32, so every
    value of the success counter is reached from the initial state, the
    largest one included. *)
Lemma succ_cnt_after_completions (lib : driverlib) (n : nat) (st : udma) :
  is_u32 (udma_xfer_succ_cnt st) ->
  udma_xfer_succ_cnt
    (final (run lib (repeat (TransferDone (UDMA_MODE_STOP lib)) n) st)) =
  u32 (udma_xfer_succ_cnt st + Z.of_nat n).
Proof.
  revert st; induction n as [|n IH]; intros st Hc.
  - cbn [repeat run ret final fst snd]. rewrite Z.add_0_r.
    symmetry; apply u32_small; exact Hc.
  - cbn [repeat]. rewrite final_run_cons.
    set (i := TransferDone (UDMA_MODE_STOP lib)).
    assert (Hs : udma_xfer_succ_cnt (final (handle lib i st)) =
                 u32 (udma_xfer_succ_cnt st + 1)).
    { subst i. cbn [handle].
      destruct (Z.eq_dec (udma_callback_ptr st) NULL) as [Hcb|Hcb];
        [rewrite (uDMAIntHandler_continue lib st (or_introl Hcb))
        |destruct (Z.eq_dec (udma_xfer_len st) 0) as [Hx|Hx];
         [rewrite (uDMAIntHandler_success lib st Hcb Hx)
         |rewrite (uDMAIntHandler_continue lib st (or_intror Hx))]];
        reflexivity. }
    rewrite IH by (rewrite Hs; apply u32_range).
    rewrite Hs. unfold u32. rewrite Zplus_mod_idemp_l.
    f_equal. lia.
Qed.

(** C5, as the code has it: every operation of the module ([dma_memcpy],
    [init_dma_memcpy], [uDMAIntHandler], [uDMAErrorHandler]) leaves each of
    [udma_error_cnt], [udma_xfer_fail_cnt] and [udma_xfer_succ_cnt] as it
    was or adds one to it modulo 2^32, so a counter below 4294967295 is
    never lowered; and the counters steer nothing: the return code, the
    trace and the other static variables are the same whatever the
    counters hold. *)
Theorem C5_counters_step_up_and_steer_nothing
  (lib : driverlib) (o : op) (st st2 : udma) :
  counters_step st (final (step lib o st)) /\
  (counters_below_max st -> counters_le st (final (step lib o st))) /\
  (same_but_counters st st2 ->
   result (step lib o st) = result (step lib o st2) /\
   trace (step lib o st) = trace (step lib o st2) /\
   same_but_counters (final (step lib o st)) (final (step lib o st2))).
Proof.
  pose proof (step_counters_step lib o st) as Hstep.
  split; [exact Hstep|]. split; [|apply step_ignores_counters].
  intros (He & Hf & Hs). destruct Hstep as (Se & Sf & Ss).
  repeat split; apply counter_step_le; assumption.
Qed.

(** A completion in stop mode on the initial state, against the same state
    with other counters. *)
Lemma C5_counters_witness :
  let o := OpIrq (TransferDone 0) in
  let st2 := set_error_cnt 9 (set_xfer_succ_cnt 5 udma_init) in
  counters_le udma_init (final (step tivaware o udma_init)) /\
  (result (step tivaware o udma_init) = result (step tivaware o st2) /\
   trace (step tivaware o udma_init) = trace (step tivaware o st2) /\
   same_but_counters (final (step tivaware o udma_init))
                     (final (step tivaware o st2))).
Proof.
  intros o st2.
  pose proof (C5_counters_step_up_and_steer_nothing tivaware o udma_init st2)
    as (_ & Hle & Hsame).
  split.
  - apply Hle. unfold counters_below_max; cbn. lia.
  - apply Hsame. unfold same_but_counters; cbn. repeat split.
Defined.

(** C5 as stated fails where a counter is full: with
    [udma_xfer_succ_cnt] at 4294967295, which 4294967295 completions in
    stop mode reach, the next completion takes it to 0. *)
Lemma C5_full_counter_wraps :
  let st := set_xfer_succ_cnt 4294967295 udma_init in
  let st' := final (step tivaware (OpIrq (TransferDone 0)) st) in
  udma_xfer_succ_cnt st' = 0 /\
  ~ udma_xfer_succ_cnt st <= udma_xfer_succ_cnt st'.
Proof.
  cbv zeta. split; [reflexivity|]. vm_compute. intros H. apply H. reflexivity.
Qed.

(** ** Invocations of the callback *)

Lemma abnormal_terminal (lib : driverlib) (i : irq) (st : udma) :
  abnormal lib i = true -> terminal lib i st = true.
Proof.
  destruct i as [hw|hw]; cbn; intros H; [|exact H].
  rewrite H. reflexivity.
Qed.

(** One handler invocation either does not call the callback and leaves
    the pointer alone, which on a terminal event happens only when no
    pointer is stored, or calls the stored pointer, once, with the code of
    its path, and leaves the pointer [NULL]. *)
Lemma handle_callbacks (lib : driverlib) (i : irq) (st : udma) :
  let r := handle lib i st in
  (callbacks (trace r) = [] /\
   udma_callback_ptr (final r) = udma_callback_ptr st /\
   (terminal lib i st = true -> udma_callback_ptr st = NULL)) \/
  (udma_callback_ptr st <> NULL /\
   callbacks (trace r) = [(udma_callback_ptr st, status_code lib i)] /\
   udma_callback_ptr (final r) = NULL).
Proof.
  handler_paths lib i st; cbn [trace final fst snd terminal status_code].
  - left. repeat split; try reflexivity. intros _; assumption.
  - right. rewrite Z.eqb_refl. repeat split; try reflexivity. assumption.
  - left. repeat split; try reflexivity. rewrite Z.eqb_refl; cbn.
    intros H; apply Z.eqb_eq in H; contradiction.
  - destruct (Z.eqb_spec hw (UDMA_MODE_STOP lib)); [contradiction|].
    destruct (Z.eqb_spec (udma_callback_ptr st) NULL) as [E|E].
    + left. cbn. rewrite E. repeat split.
    + right. repeat split; try reflexivity. assumption.
  - left. repeat split; try reflexivity. discriminate.
  - destruct (Z.eqb_spec (udma_callback_ptr st) NULL) as [E|E].
    + left. cbn. rewrite E. repeat split.
    + right. repeat split; try reflexivity. assumption.
Qed.

Lemma run_callbacks (lib : driverlib) (irqs : list irq) (st : udma) :
  let r := run lib irqs st in
  (callbacks (trace r) = [] /\
   udma_callback_ptr (final r) = udma_callback_ptr st) \/
  (udma_callback_ptr st <> NULL /\
   exists i, In i irqs /\
     callbacks (trace r) = [(udma_callback_ptr st, status_code lib i)] /\
     udma_callback_ptr (final r) = NULL).
Proof.
  revert st; induction irqs as [|i irqs IH]; intros st; cbv zeta.
  - left. split; reflexivity.
  - rewrite trace_run_cons, final_run_cons, callbacks_app.
    destruct (handle_callbacks lib i st) as [(Hc & Hp & _) | (Hn & Hc & Hp)];
      destruct (IH (final (handle lib i st)))
        as [(Hc' & Hp') | (Hn' & j & Hj & Hc' & Hp')];
      rewrite Hc, Hc'.
    + left. split; [reflexivity|congruence].
    + right. rewrite Hp in Hn'. split; [assumption|].
      exists j. rewrite <- Hp. repeat split; auto. right; assumption.
    + right. split; [assumption|].
      exists i. repeat split; [left; reflexivity|congruence].
    + congruence.
Qed.

Lemma run_callbacks_abnormal (lib : driverlib) (irqs : list irq) (st : udma) :
  udma_callback_ptr st <> NULL ->
  existsb (abnormal lib) irqs = true ->
  length (callbacks (trace (run lib irqs st))) = 1%nat.
Proof.
  revert st; induction irqs as [|i irqs IH]; intros st Hn Hex;
    [discriminate|].
  rewrite trace_run_cons, callbacks_app, length_app.
  destruct (handle_callbacks lib i st) as [(Hc & Hp & Ht) | (_ & Hc & Hp)].
  - rewrite Hc. cbn [length Nat.add]. apply IH; [congruence|].
    cbn [existsb] in Hex. apply orb_true_iff in Hex as [Ha|Hr]; [|exact Hr].
    exfalso. apply Hn, Ht, abnormal_terminal, Ha.
  - rewrite Hc.
    destruct (run_callbacks lib irqs (final (handle lib i st)))
      as [(Hc' & _) | (Hn' & _)]; [|congruence].
    rewrite Hc'. reflexivity.
Qed.

(** A handler invocation that is not terminal calls nothing and leaves
    the pointer alone. *)
Lemma handle_nonterminal (lib : driverlib) (i : irq) (st : udma) :
  terminal lib i st = false ->
  callbacks (trace (handle lib i st)) = [] /\
  udma_callback_ptr (final (handle lib i st)) = udma_callback_ptr st.
Proof.
  handler_paths lib i st; cbn [terminal trace final fst snd]; intros Ht.
  - split; reflexivity.
  - rewrite Hlen, Z.eqb_refl in Ht. cbn in Ht. discriminate.
  - split; reflexivity.
  - destruct (Z.eqb_spec hw (UDMA_MODE_STOP lib)); [contradiction|].
    discriminate.
  - split; reflexivity.
  - destruct (Z.eqb_spec hw 0); [contradiction|]. discriminate.
Qed.

(** A terminal handler invocation calls the stored pointer, with the code
    of its path, and clears it. *)
Lemma handle_terminal_calls (lib : driverlib) (i : irq) (st : udma) :
  terminal lib i st = true ->
  udma_callback_ptr st <> NULL ->
  callbacks (trace (handle lib i st)) =
    [(udma_callback_ptr st, status_code lib i)] /\
  udma_callback_ptr (final (handle lib i st)) = NULL.
Proof.
  intros Ht Hn.
  destruct (handle_callbacks lib i st) as [(_ & _ & Hz) | (_ & Hc & Hp)].
  - exfalso. apply Hn, Hz, Ht.
  - split; assumption.
Qed.

(** With a pointer stored, the callback is called exactly once across
    interrupts of which one is terminal. *)
Lemma run_callbacks_terminal (lib : driverlib) (irqs : list irq) (st : udma) :
  udma_callback_ptr st <> NULL ->
  terminal_occurs lib irqs st = true ->
  length (callbacks (trace (run lib irqs st))) = 1%nat.
Proof.
  revert st; induction irqs as [|i irqs IH]; intros st Hn Ht;
    [discriminate|].
  rewrite trace_run_cons, callbacks_app, length_app.
  cbn [terminal_occurs] in Ht.
  destruct (terminal lib i st) eqn:Hi.
  - destruct (handle_terminal_calls lib i st Hi Hn) as [Hc Hp].
    rewrite Hc.
    destruct (run_callbacks lib irqs (final (handle lib i st)))
      as [(Hc' & _) | (Hn' & _)]; [|congruence].
    rewrite Hc'. reflexivity.
  - destruct (handle_nonterminal lib i st Hi) as [Hc Hp].
    rewrite Hc. cbn [length Nat.add]. apply IH; [congruence|exact Ht].
Qed.

(** Across interrupts of which none is terminal the callback is not
    called and its pointer stays stored. *)
Lemma run_callbacks_no_terminal (lib : driverlib) (irqs : list irq)
  (st : udma) :
  terminal_occurs lib irqs st = false ->
  callbacks (trace (run lib irqs st)) = [] /\
  udma_callback_ptr (final (run lib irqs st)) = udma_callback_ptr st.
Proof.
  revert st; induction irqs as [|i irqs IH]; intros st Ht.
  - split; reflexivity.
  - cbn [terminal_occurs] in Ht. apply orb_false_iff in Ht as [Hi Ht].
    rewrite trace_run_cons, final_run_cons, callbacks_app.
    destruct (handle_nonterminal lib i st Hi) as [Hc Hp].
    destruct (IH _ Ht) as [Hc' Hp'].
    rewrite Hc, Hc', Hp', Hp. split; reflexivity.
Qed.

(** C3, as the code has it: across a successful [dma_memcpy] call and
    any handler invocations that follow it, the stored callback is invoked
    exactly once when a pointer is stored and a terminal event occurs
    among them, whichever of the three it is: a completion in stop mode
    with nothing remaining (code 0), a completion in another mode (code 1)
    or a pending controller error (code 2).  It is invoked not at all when
    no pointer is stored or when none of the invocations is terminal, and
    the pointer then stays stored: a handler invocation that is not
    terminal, a completion that queues a chunk or an error interrupt with
    no error pending, releases the lock without calling anything.  It is
    never invoked twice, and the pointer is [NULL] right after the
    invocation. *)
Theorem C3_callback_at_most_once
  (lib : driverlib) (st : udma) (dst src len chan cb : Z)
  (irqs : list irq) :
  udma_channel_lock st = 0 ->
  let start := dma_memcpy lib dst src len chan cb st in
  let p := udma_callback_ptr (final start) in
  let r := run lib irqs (final start) in
  p = (if cb =? NULL then udma_callback_ptr st else cb) /\
  callbacks (trace start) = [] /\
  ((callbacks (trace r) = [] /\ udma_callback_ptr (final r) = p) \/
   (p <> NULL /\
    exists i, In i irqs /\
      callbacks (trace r) = [(p, status_code lib i)] /\
      udma_callback_ptr (final r) = NULL)) /\
  (p <> NULL -> terminal_occurs lib irqs (final start) = true ->
   length (callbacks (trace r)) = 1%nat) /\
  (terminal_occurs lib irqs (final start) = false ->
   callbacks (trace r) = [] /\ udma_callback_ptr (final r) = p) /\
  (p = NULL -> callbacks (trace r) = []) /\
  (p <> NULL -> existsb (abnormal lib) irqs = true ->
   length (callbacks (trace r)) = 1%nat) /\
  (forall (i : irq) (s : udma),
     terminal lib i s = false ->
     callbacks (trace (handle lib i s)) = [] /\
     udma_callback_ptr (final (handle lib i s)) = udma_callback_ptr s) /\
  (forall (i : irq) (s : udma),
     terminal lib i s = true ->
     udma_callback_ptr s <> NULL ->
     callbacks (trace (handle lib i s)) =
       [(udma_callback_ptr s, status_code lib i)] /\
     udma_callback_ptr (final (handle lib i s)) = NULL) /\
  (forall (i : irq) (s : udma),
     callbacks (trace (handle lib i s)) = [] \/
     callbacks (trace (handle lib i s)) =
       [(udma_callback_ptr s, status_code lib i)] /\
     udma_callback_ptr (final (handle lib i s)) = NULL).
Proof.
  intros Hlock start p r.
  split; [|split; [|split; [|split; [|split; [|split; [|split;
    [|split; [|split]]]]]]]].
  - subst p start. rewrite dma_memcpy_start by assumption. reflexivity.
  - apply (dma_memcpy_start_trace lib st dst src len chan cb Hlock).
  - apply run_callbacks.
  - apply run_callbacks_terminal.
  - apply run_callbacks_no_terminal.
  - intros Hp.
    destruct (run_callbacks lib irqs (final start))
      as [(Hc & _) | (Hn & _)]; [exact Hc|contradiction].
  - apply run_callbacks_abnormal.
  - intros i s. apply handle_nonterminal.
  - intros i s. apply handle_terminal_calls.
  - intros i s.
    destruct (handle_callbacks lib i s) as [(Hc & _) | (_ & Hc & Hp)];
      [left; exact Hc|right; split; assumption].
Qed.

(** 2500 words with callback 77.  Three completions in stop mode, the
    third with nothing remaining: one call.  Two completions in stop mode
    and one in mode 1: one call.  One completion in stop mode, which
    queues the second chunk: no call, and 77 still stored. *)
Lemma C3_callback_witness :
  let start := dma_memcpy tivaware 4096 8192 2500 5 77 udma_init in
  udma_callback_ptr (final start) = 77 /\
  callbacks (trace start) = [] /\
  length (callbacks
            (trace (run tivaware
                      [TransferDone 0; TransferDone 0; TransferDone 0]
                      (final start)))) = 1%nat /\
  length (callbacks
            (trace (run tivaware
                      [TransferDone 0; TransferDone 0; TransferDone 1]
                      (final start)))) = 1%nat /\
  (callbacks (trace (run tivaware [TransferDone 0] (final start))) = [] /\
   udma_callback_ptr (final (run tivaware [TransferDone 0] (final start))) =
   77).
Proof.
  intros start.
  pose proof (C3_callback_at_most_once tivaware udma_init 4096 8192 2500 5 77
                [TransferDone 0; TransferDone 0; TransferDone 0] eq_refl)
    as (Hp & Hs & _ & Hsucc & _).
  pose proof (C3_callback_at_most_once tivaware udma_init 4096 8192 2500 5 77
                [TransferDone 0; TransferDone 0; TransferDone 1] eq_refl)
    as (_ & _ & _ & _ & _ & _ & Hfail & _).
  pose proof (C3_callback_at_most_once tivaware udma_init 4096 8192 2500 5 77
                [TransferDone 0] eq_refl)
    as (_ & _ & _ & _ & Hnone & _).
  split; [exact Hp|]. split; [exact Hs|].
  split; [apply Hsucc; [discriminate|reflexivity]|].
  split; [apply Hfail; [discriminate|reflexivity]|].
  apply Hnone. reflexivity.
Defined.

(** C3 as stated fails: 2500 words with callback 77.  The first
    completion queues the second chunk and releases the lock; the callback
    has not been called and its pointer is still stored. *)
Lemma C3_lock_released_without_callback :
  let r := session tivaware 4096 8192 2500 5 77 1 udma_init in
  result r = 0 /\
  udma_channel_lock (final r) = 0 /\
  callbacks (trace r) = [] /\
  length (callbacks (trace r)) <> 1%nat /\
  udma_callback_ptr (final r) = 77.
Proof. repeat split. discriminate. Qed.

(** The same through the error handler when no error is pending, and with
    no callback supplied. *)
Example spurious_error_interrupt_ends_session :
  let start := dma_memcpy tivaware 4096 8192 500 5 77 udma_init in
  let r := uDMAErrorHandler 0 (final start) in
  udma_channel_lock (final r) = 0 /\ callbacks (trace r) = [] /\
  udma_callback_ptr (final r) = 77.
Proof. repeat split. Qed.

Example no_callback_no_invocation :
  let r := session tivaware 4096 8192 500 5 NULL 1 udma_init in
  udma_channel_lock (final r) = 0 /\ callbacks (trace r) = [].
Proof. repeat split. Qed.

(** ** Chunking of a successful session *)

Lemma ceil_div_zero_iff (x : Z) :
  0 <= x -> (ceil_div x MAX_XFER_LEN = 0 <-> x = 0).
Proof.
  unfold ceil_div, MAX_XFER_LEN. intros Hx.
  split; intros H; [|subst; reflexivity].
  apply Z.div_small_iff in H; lia.
Qed.

Lemma ceil_div_step (x : Z) :
  0 < x ->
  ceil_div (x - Z.min x MAX_XFER_LEN) MAX_XFER_LEN =
  ceil_div x MAX_XFER_LEN - 1.
Proof.
  unfold ceil_div, MAX_XFER_LEN. intros Hx.
  destruct (Z.le_gt_cases x 1024) as [Hle|Hgt].
  - rewrite Z.min_l by assumption.
    replace (x - x + 1024 - 1) with 1023 by lia.
    rewrite (Z.div_small 1023 1024) by lia.
    assert ((x + 1024 - 1) / 1024 = 1); [|lia].
    symmetry. apply (Z.div_unique _ _ 1 (x - 1)); lia.
  - rewrite Z.min_r by lia.
    replace (x + 1024 - 1) with (x - 1024 + 1024 - 1 + 1 * 1024) by lia.
    rewrite Z.div_add by lia. lia.
Qed.

Lemma ceil_div_le (x : Z) : 0 <= x -> 0 <= ceil_div x MAX_XFER_LEN <= x.
Proof.
  unfold ceil_div, MAX_XFER_LEN. intros Hx. split.
  - apply Z.div_pos; lia.
  - destruct (Z.eq_dec x 0) as [->|Hn]; [cbn; lia|].
    apply Z.div_le_upper_bound; lia.
Qed.

Section Chunking.

Variable lib : driverlib.

(** With a callback stored, [m] completions in stop mode queue the
    remaining words in chunks of min(remaining, 1024), without calling the
    callback; [m] is the ceiling of remaining / 1024. *)
Lemma run_queues_chunks (m fuel : nat) (st : udma) :
  udma_callback_ptr st <> NULL ->
  is_u32 (udma_xfer_len st) ->
  ceil_div (udma_xfer_len st) MAX_XFER_LEN = Z.of_nat m ->
  (m <= fuel)%nat ->
  let r := run lib (repeat (TransferDone (UDMA_MODE_STOP lib)) m) st in
  armed_sizes (trace r) = spec_chunks_from fuel (udma_xfer_len st) /\
  length (armed_sizes (trace r)) = m /\
  length (requests (trace r)) = m /\
  callbacks (trace r) = [] /\
  udma_xfer_len (final r) = 0 /\
  udma_callback_ptr (final r) = udma_callback_ptr st.
Proof.
  revert fuel st; induction m as [|m IH]; intros fuel st Hcb Hx Hm Hfuel;
    cbv zeta.
  - apply (proj1 (ceil_div_zero_iff _ (proj1 Hx))) in Hm.
    cbn [repeat run ret trace final fst snd]. rewrite Hm.
    destruct fuel; repeat split.
  - assert (Hpos : 0 < udma_xfer_len st).
    { destruct (Z.eq_dec (udma_xfer_len st) 0) as [E|E].
      - rewrite E in Hm. cbn in Hm. lia.
      - unfold is_u32 in Hx. lia. }
    destruct fuel as [|fuel]; [lia|].
    cbn [repeat]. rewrite trace_run_cons, final_run_cons.
    cbn [handle].
    rewrite (uDMAIntHandler_continue lib st) by (right; lia).
    cbv zeta. cbn [trace final fst snd].
    set (c := Z.min (udma_xfer_len st) MAX_XFER_LEN).
    set (st1 := set_channel_lock 0 _).
    destruct (chunk_sub_exact _ Hx) as [He Hb]. fold c in He, Hb.
    assert (Hx1 : udma_xfer_len st1 = udma_xfer_len st - c)
      by (subst st1; cbn; exact He).
    assert (Hcb1 : udma_callback_ptr st1 = udma_callback_ptr st)
      by reflexivity.
    destruct (IH fuel st1) as (Hs & Hl & Hr & Hc & Hz & Hp).
    + rewrite Hcb1; exact Hcb.
    + rewrite Hx1. unfold is_u32 in *. lia.
    + rewrite Hx1. subst c. rewrite ceil_div_step by assumption. lia.
    + lia.
    + rewrite armed_sizes_app, requests_app, callbacks_app.
      rewrite !length_app, Hl, Hr, Hs, Hc, Hz, Hp, Hx1.
      cbn [spec_chunks_from].
      destruct (Z.leb_spec (udma_xfer_len st) 0); [lia|].
      fold c. repeat split.
Qed.

(** Fewer completions than that call no callback either. *)
Lemma run_prefix_no_callback (m n : nat) (st : udma) :
  udma_callback_ptr st <> NULL ->
  is_u32 (udma_xfer_len st) ->
  ceil_div (udma_xfer_len st) MAX_XFER_LEN = Z.of_nat m ->
  (n <= m)%nat ->
  callbacks
    (trace (run lib (repeat (TransferDone (UDMA_MODE_STOP lib)) n) st)) = [].
Proof.
  intros Hcb Hx Hm Hn.
  destruct (run_queues_chunks m m st Hcb Hx Hm (le_n m))
    as (_ & _ & _ & Hc & _).
  replace m with (n + (m - n))%nat in Hc by lia.
  rewrite repeat_app, trace_run_app, callbacks_app in Hc.
  apply app_eq_nil in Hc. apply Hc.
Qed.

End Chunking.

(** C1, as the code has it: a transfer of [L] words, [L] at least 1, is
    started with a callback and every chunk completes in stop mode.  With
    k = ceil(L / 1024), after k completions the lengths programmed are, in
    order, min(remaining, 1024) until nothing remains; k transfers have
    been programmed and k requests made; the callback has been called
    once, with code 0, as the last event of all, and no earlier completion
    called it. *)
Theorem C1_successful_session_chunks
  (lib : driverlib) (st : udma) (dst src L chan cb : Z) :
  udma_channel_lock st = 0 ->
  1 <= L < 2 ^ 32 ->
  cb <> NULL ->
  let k := Z.to_nat (ceil_div L MAX_XFER_LEN) in
  let r := session lib dst src L chan cb k st in
  result r = 0 /\
  armed_sizes (trace r) = spec_chunks L /\
  length (armed_sizes (trace r)) = k /\
  length (requests (trace r)) = k /\
  callbacks (trace r) = [(cb, 0)] /\
  (exists t, trace r = t ++ [Callback cb 0]) /\
  (forall n : nat, (n < k)%nat ->
     callbacks (trace (session lib dst src L chan cb n st)) = []).
Proof.
  intros Hlock HL Hcb k r.
  set (c := Z.min L MAX_XFER_LEN).
  set (st1 := final (dma_memcpy lib dst src L chan cb st)).
  assert (HuL : u32 L = L) by (apply u32_small; unfold is_u32; lia).
  destruct (chunk_sub_exact L) as [He Hb]; [unfold is_u32; lia|].
  fold c in He, Hb.
  destruct (dma_memcpy_start_trace lib st dst src L chan cb Hlock)
    as (Hs0 & _ & _ & Hr0 & Hc0).
  rewrite HuL in Hs0. fold c in Hs0.
  assert (Hx1 : udma_xfer_len st1 = L - c).
  { subst st1. rewrite dma_memcpy_start by assumption.
    cbn [final fst snd udma_xfer_len]. rewrite HuL. exact He. }
  assert (Hcb1 : udma_callback_ptr st1 = cb).
  { subst st1. rewrite dma_memcpy_start by assumption.
    cbn [final fst snd udma_callback_ptr].
    destruct (Z.eqb_spec cb NULL); [contradiction|reflexivity]. }
  assert (Hn1 : udma_callback_ptr st1 <> NULL) by (rewrite Hcb1; exact Hcb).
  assert (Hu1 : is_u32 (udma_xfer_len st1))
    by (rewrite Hx1; unfold is_u32; lia).
  pose proof (ceil_div_step L ltac:(lia)) as Hstep. fold c in Hstep.
  pose proof (ceil_div_le L ltac:(lia)) as Hceil.
  pose proof (ceil_div_le (L - c) ltac:(lia)) as Hceil1.
  set (m := Z.to_nat (ceil_div (L - c) MAX_XFER_LEN)).
  assert (Hk : k = S m) by (subst k m; lia).
  assert (Hm : ceil_div (udma_xfer_len st1) MAX_XFER_LEN = Z.of_nat m)
    by (rewrite Hx1; subst m; lia).
  set (fuel := Z.to_nat (L - 1)).
  destruct (run_queues_chunks lib m fuel st1 Hn1 Hu1 Hm)
    as (Hs & Hl & Hr & Hc & Hz & Hp); [subst m fuel; lia|].
  set (stop := TransferDone (UDMA_MODE_STOP lib)) in *.
  set (rm := run lib (repeat stop m) st1) in *.
  assert (Hlast : trace (run lib [stop] (final rm)) =
                  [ChannelModeGet (udma_channel (final rm)); Callback cb 0]).
  { rewrite trace_run_cons. subst stop. cbn [handle].
    rewrite (uDMAIntHandler_success lib (final rm)) by congruence.
    cbn. rewrite Hp, Hcb1. reflexivity. }
  assert (Ht : trace r =
               trace (dma_memcpy lib dst src L chan cb st) ++
               trace rm ++
               [ChannelModeGet (udma_channel (final rm)); Callback cb 0]).
  { subst r. rewrite trace_session, Hk. fold stop. fold st1.
    cbn [repeat]. rewrite repeat_cons, trace_run_app. fold rm.
    rewrite Hlast. reflexivity. }
  split; [|split; [|split; [|split; [|split; [|split]]]]].
  - subst r. rewrite result_session, dma_memcpy_start by assumption.
    reflexivity.
  - rewrite Ht, !armed_sizes_app, Hs0, Hs, Hx1. cbn [armed_sizes flat_map].
    rewrite app_nil_r. unfold spec_chunks.
    replace (Z.to_nat L) with (S fuel) by (subst fuel; lia).
    cbn [spec_chunks_from].
    destruct (Z.leb_spec L 0); [lia|]. reflexivity.
  - rewrite Ht, !armed_sizes_app, !length_app, Hs0, Hl, Hk. cbn. lia.
  - rewrite Ht, !requests_app, !length_app, Hr0, Hr, Hk. cbn. lia.
  - rewrite Ht, !callbacks_app, Hc0, Hc. reflexivity.
  - exists (trace (dma_memcpy lib dst src L chan cb st) ++ trace rm ++
            [ChannelModeGet (udma_channel (final rm))]).
    rewrite Ht, <- !app_assoc. reflexivity.
  - intros n Hn. rewrite trace_session, callbacks_app, Hc0. fold stop st1.
    cbn [app]. apply (run_prefix_no_callback lib m n st1); try assumption.
    lia.
Qed.

(** The chunks of the specification add up to the whole length: the fuel
    of [spec_chunks] is enough to bring the remaining length to 0. *)
Lemma spec_chunks_from_sum (fuel : nat) (x : Z) :
  0 <= x <= Z.of_nat fuel ->
  fold_right Z.add 0 (spec_chunks_from fuel x) = x.
Proof.
  revert x; induction fuel as [|fuel IH]; intros x Hx.
  - cbn. lia.
  - cbn [spec_chunks_from].
    destruct (Z.leb_spec x 0); [cbn; lia|].
    cbn [fold_right]. rewrite IH; unfold MAX_XFER_LEN; lia.
Qed.

Lemma spec_chunks_sum (L : Z) :
  0 <= L -> fold_right Z.add 0 (spec_chunks L) = L.
Proof. intros HL. apply spec_chunks_from_sum. lia. Qed.

(** The scenario of 2500 words: chunks of 1024, 1024 and 452 words, three
    requests, one call of the callback with code 0 after the third
    completion. *)
Lemma C1_session_2500_witness :
  let r := session tivaware 4096 8192 2500 5 77 3 udma_init in
  result r = 0 /\
  armed_sizes (trace r) = [1024; 1024; 452] /\
  length (armed_sizes (trace r)) = 3%nat /\
  length (requests (trace r)) = 3%nat /\
  callbacks (trace r) = [(77, 0)] /\
  (exists t, trace r = t ++ [Callback 77 0]) /\
  (forall n : nat, (n < 3)%nat ->
     callbacks (trace (session tivaware 4096 8192 2500 5 77 n udma_init)) = []).
Proof.
  apply (C1_successful_session_chunks tivaware udma_init 4096 8192 2500 5 77).
  - reflexivity.
  - lia.
  - discriminate.
Defined.

Example session_2500_trace :
  trace (session tivaware 4096 8192 2500 5 77 3 udma_init) =
  [ChannelAttributeDisable 5 15; ChannelControlSet 5 2852175872;
   ChannelTransferSet 5 2 8192 4096 1024; ChannelEnable 5; ChannelRequest 5;
   ChannelModeGet 5;
   ChannelTransferSet 5 2 12288 8192 1024; ChannelEnable 5; ChannelRequest 5;
   ChannelModeGet 5;
   ChannelTransferSet 5 2 16384 12288 452; ChannelEnable 5; ChannelRequest 5;
   ChannelModeGet 5; Callback 77 0].
Proof. reflexivity. Qed.

(** C1 as stated fails at both ends.  A transfer of 0 words with callback
    77 is a whole session, the callback is called with code 0 at the first
    completion, and one chunk, of length 0, has been queued, where
    ceil(0 / 1024) is 0 and the chunk sizes of the specification are none.
    A transfer of 500 words without a callback has queued two chunks after
    its one completion, where ceil(500 / 1024) is 1: with no callback
    stored, a completion with nothing left queues a chunk of length 0
    again. *)
Lemma C1_chunk_count_is_not_ceil :
  (let r := session tivaware 4096 8192 0 5 77 1 udma_init in
   callbacks (trace r) = [(77, 0)] /\
   armed_sizes (trace r) = [0] /\
   armed_sizes (trace r) <> spec_chunks 0 /\
   length (armed_sizes (trace r)) <> Z.to_nat (ceil_div 0 MAX_XFER_LEN)) /\
  (let r := session tivaware 4096 8192 500 5 NULL 1 udma_init in
   armed_sizes (trace r) = [500; 0] /\
   armed_sizes (trace r) <> spec_chunks 500 /\
   length (armed_sizes (trace r)) <> Z.to_nat (ceil_div 500 MAX_XFER_LEN)).
Proof.
  cbv zeta. repeat split; try reflexivity; vm_compute; discriminate.
Qed.

(** Without a callback the queueing never ends: every further completion
    in stop mode queues one more chunk of length 0. *)
Example no_callback_requeues_forever :
  armed_sizes (trace (session tivaware 4096 8192 500 5 NULL 4 udma_init)) =
  [500; 0; 0; 0; 0].
Proof. reflexivity. Qed.

(** * Further properties of the module *)

(** ** Sequences of operations *)

Lemma final_step_irq (lib : driverlib) (i : irq) (st : udma) :
  final (step lib (OpIrq i) st) = final (handle lib i st).
Proof.
  cbn [step]. unfold bind. destruct (handle lib i st) as [[[] s] t].
  reflexivity.
Qed.

Lemma trace_step_irq (lib : driverlib) (i : irq) (st : udma) :
  trace (step lib (OpIrq i) st) = trace (handle lib i st).
Proof.
  cbn [step]. unfold bind. destruct (handle lib i st) as [[[] s] t].
  cbn. apply app_nil_r.
Qed.

Lemma final_run_ops_cons (lib : driverlib) (o : op) (ops : list op)
  (st : udma) :
  final (run_ops lib (o :: ops) st) =
  final (run_ops lib ops (final (step lib o st))).
Proof.
  cbn [run_ops]. unfold bind.
  destruct (step lib o st) as [[rc s1] t1]; cbn.
  destruct (run_ops lib ops s1) as [[[] s2] t2]; reflexivity.
Qed.

Lemma trace_run_ops_cons (lib : driverlib) (o : op) (ops : list op)
  (st : udma) :
  trace (run_ops lib (o :: ops) st) =
  trace (step lib o st) ++ trace (run_ops lib ops (final (step lib o st))).
Proof.
  cbn [run_ops]. unfold bind.
  destruct (step lib o st) as [[rc s1] t1]; cbn.
  destruct (run_ops lib ops s1) as [[[] s2] t2]; reflexivity.
Qed.

(** Splits an operation into the paths of its function and rewrites the
    function with the equation of each path. *)
Ltac step_paths lib o st :=
  let H := fresh "Hlock" in
  let i := fresh "i" in
  destruct o as [? ? ? ? ? | ? | i];
  [ cbn [step]; destruct (Z.eq_dec (udma_channel_lock st) 0) as [H|H];
    [ rewrite !dma_memcpy_start by exact H
    | rewrite !dma_memcpy_busy by exact H ]
  | cbn [step]; rewrite !init_dma_memcpy_eq
  | rewrite ?final_step_irq, ?trace_step_irq; handler_paths lib i st ].

(** ** Bounds of the programmed lengths *)

Lemma step_armed_bounds (lib : driverlib) (o : op) (st : udma) :
  is_u32 (udma_xfer_len st) ->
  Forall (fun n => 0 <= n <= MAX_XFER_LEN)
    (armed_sizes (trace (step lib o st))) /\
  is_u32 (udma_xfer_len (final (step lib o st))).
Proof.
  intros Hx. pose proof Hx as Hx'. unfold is_u32, MAX_XFER_LEN in Hx'.
  step_paths lib o st; cbv zeta; cbn [trace final fst snd udma_xfer_len
    set_channel_lock set_callback_ptr set_xfer_succ_cnt set_xfer_fail_cnt
    set_error_cnt set_xfer_dst set_xfer_src set_xfer_len set_handler_len
    set_is_initialized].
  - split; [|apply u32_range].
    rewrite armed_sizes_app.
    match goal with
    | |- context [Z.min (u32 ?l) _] => pose proof (u32_range l) as Hr
    end.
    unfold is_u32, MAX_XFER_LEN in *.
    destruct (udma_is_initialized st =? 0); cbn; repeat constructor; lia.
  - split; [constructor|assumption].
  - split; [constructor|assumption].
  - split; [|apply u32_range].
    cbn. unfold MAX_XFER_LEN. repeat constructor; lia.
  - split; [constructor|assumption].
  - split; [|apply u32_range].
    cbn. unfold MAX_XFER_LEN. repeat constructor; lia.
  - split; [|assumption].
    destruct (udma_callback_ptr st =? NULL); constructor.
  - split; [constructor|assumption].
  - split; [|assumption].
    destruct (udma_callback_ptr st =? NULL); constructor.
Qed.

(** X9: whatever sequence of operations runs, every length programmed
    into the controller lies between 0 and 1024, the limit of one uDMA
    transfer. *)
Theorem armed_sizes_within_limit
  (lib : driverlib) (ops : list op) (st : udma) :
  is_u32 (udma_xfer_len st) ->
  Forall (fun n => 0 <= n <= MAX_XFER_LEN)
    (armed_sizes (trace (run_ops lib ops st))).
Proof.
  revert st; induction ops as [|o ops IH]; intros st Hx.
  - constructor.
  - rewrite trace_run_ops_cons, armed_sizes_app.
    destruct (step_armed_bounds lib o st Hx) as [Hb Hx1].
    apply Forall_app. split; [exact Hb|apply IH; exact Hx1].
Qed.

(** ** Every programmed transfer is started *)

Lemma step_starts_what_it_programs (lib : driverlib) (o : op) (st : udma) :
  let t := trace (step lib o st) in
  enables t = requests t /\
  length (requests t) = length (armed_sizes t).
Proof.
  cbv zeta. step_paths lib o st; cbv zeta; cbn [trace snd];
    try (split; reflexivity);
    try (destruct (udma_callback_ptr st =? NULL); split; reflexivity).
  rewrite enables_app, requests_app, armed_sizes_app.
  destruct (udma_is_initialized st =? 0); split; reflexivity.
Qed.

(** X10: whatever sequence of operations runs, each transfer programmed
    into the controller is followed by one enable and one request: the
    channels enabled are the channels requested, in the same order, and
    there are as many of them as programmed transfers. *)
Theorem every_programmed_transfer_is_started
  (lib : driverlib) (ops : list op) (st : udma) :
  let t := trace (run_ops lib ops st) in
  enables t = requests t /\
  length (requests t) = length (armed_sizes t).
Proof.
  revert st; induction ops as [|o ops IH]; intros st; cbv zeta.
  - split; reflexivity.
  - rewrite trace_run_ops_cons, enables_app, requests_app, armed_sizes_app.
    rewrite !length_app.
    destruct (step_starts_what_it_programs lib o st) as [He Hl].
    destruct (IH (final (step lib o st))) as [He' Hl'].
    rewrite He, He', Hl, Hl'. split; reflexivity.
Qed.

(** ** Configuration of the channel *)

Lemma configured_app (a b : list event) :
  configured (a ++ b) = configured a ++ configured b.
Proof. apply flat_map_app. Qed.

(** An operation other than [init_dma_memcpy] configures the channel only
    while the flag is 0, and the flag, once set, stays set. *)
Lemma step_configures (lib : driverlib) (o : op) (st : udma) :
  is_init_op o = false ->
  let r := step lib o st in
  (udma_is_initialized st <> 0 ->
   configured (trace r) = [] /\ udma_is_initialized (final r) <> 0) /\
  (udma_is_initialized st = 0 ->
   (configured (trace r) = [] /\ udma_is_initialized (final r) = 0) \/
   (exists chan, configured (trace r) = [chan] /\
                 udma_is_initialized (final r) <> 0)).
Proof.
  intros Ho. cbv zeta. step_paths lib o st; try discriminate Ho; cbv zeta;
    cbn [trace final fst snd udma_is_initialized set_channel_lock
         set_callback_ptr set_xfer_succ_cnt set_xfer_fail_cnt set_error_cnt
         set_xfer_dst set_xfer_src set_xfer_len set_handler_len];
    try (split; intros Hi; [split; [reflexivity|exact Hi]
                           |left; split; [reflexivity|exact Hi]]);
    try (destruct (udma_callback_ptr st =? NULL);
         (split; intros Hi; [split; [reflexivity|exact Hi]
                            |left; split; [reflexivity|exact Hi]])).
  rewrite configured_app.
  destruct (Z.eqb_spec (udma_is_initialized st) 0) as [E|E]; split;
    intros Hi; try contradiction.
  - right. eexists. split; [reflexivity|discriminate].
  - split; [reflexivity|exact Hi].
Qed.

Lemma run_ops_configured_once_set (lib : driverlib) (ops : list op)
  (st : udma) :
  no_direct_init ops = true ->
  udma_is_initialized st <> 0 ->
  configured (trace (run_ops lib ops st)) = [] /\
  udma_is_initialized (final (run_ops lib ops st)) <> 0.
Proof.
  revert st; induction ops as [|o ops IH]; intros st Hn Hi.
  - split; [reflexivity|exact Hi].
  - cbn [no_direct_init forallb] in Hn. apply andb_true_iff in Hn as [Ho Hn].
    apply negb_true_iff in Ho.
    rewrite trace_run_ops_cons, final_run_ops_cons, configured_app.
    destruct (step_configures lib o st Ho) as [Hset _].
    destruct (Hset Hi) as [Hc Hi1].
    destruct (IH (final (step lib o st)) Hn Hi1) as [Hc' Hi'].
    rewrite Hc, Hc'. split; [reflexivity|exact Hi'].
Qed.

(** X1: the configuration is lazy and global.  In a sequence of calls of
    [dma_memcpy] and interrupts, with no direct call of
    [init_dma_memcpy], the channel control parameters are set at most
    once; and once [udma_is_initialized] is set they are never set again,
    on whatever channel a later transfer is started, and the flag is never
    cleared. *)
Theorem channel_configured_at_most_once
  (lib : driverlib) (ops : list op) (st : udma) :
  no_direct_init ops = true ->
  (length (configured (trace (run_ops lib ops st))) <= 1)%nat /\
  (udma_is_initialized st <> 0 ->
   configured (trace (run_ops lib ops st)) = [] /\
   udma_is_initialized (final (run_ops lib ops st)) <> 0).
Proof.
  intros Hn. split; [|apply run_ops_configured_once_set; exact Hn].
  revert st Hn; induction ops as [|o ops IH]; intros st Hn.
  - cbn. lia.
  - pose proof Hn as Hn0.
    cbn [no_direct_init forallb] in Hn. apply andb_true_iff in Hn as [Ho Hn].
    apply negb_true_iff in Ho.
    destruct (Z.eq_dec (udma_is_initialized st) 0) as [Hi|Hi].
    + rewrite trace_run_ops_cons, configured_app, length_app.
      destruct (step_configures lib o st Ho) as [_ Hunset].
      destruct (Hunset Hi) as [[Hc _] | [chan [Hc Hi1]]]; rewrite Hc.
      * cbn [length Nat.add]. apply IH. exact Hn.
      * destruct (run_ops_configured_once_set lib ops _ Hn Hi1) as [Hc' _].
        rewrite Hc'. cbn. lia.
    + destruct (run_ops_configured_once_set lib (o :: ops) st Hn0 Hi)
        as [Hc _].
      rewrite Hc. cbn. lia.
Qed.

(** Two transfers on channels 5 and 6 from the initial state: channel 5 is
    configured, channel 6 never is. *)
Lemma channel_configured_witness :
  let ops := [OpMemcpy 4096 8192 500 5 77; OpIrq (TransferDone 0);
              OpMemcpy 20480 24576 300 6 99; OpIrq (TransferDone 0)] in
  (length (configured (trace (run_ops tivaware ops udma_init))) <= 1)%nat /\
  configured
    (trace (run_ops tivaware ops
              (final (step tivaware (OpMemcpy 4096 8192 500 5 77) udma_init))))
  = [].
Proof.
  intros ops. split.
  - apply (channel_configured_at_most_once tivaware ops udma_init).
    reflexivity.
  - apply (channel_configured_at_most_once tivaware ops
             (final (step tivaware (OpMemcpy 4096 8192 500 5 77) udma_init))).
    + reflexivity.
    + discriminate.
Defined.

Example second_channel_is_not_configured :
  configured
    (trace (run_ops tivaware
              [OpMemcpy 4096 8192 500 5 77; OpIrq (TransferDone 0);
               OpMemcpy 20480 24576 300 6 99; OpIrq (TransferDone 0)]
              udma_init)) = [5].
Proof. reflexivity. Qed.

(** ** Words queued and words remaining *)

Lemma total_app (a b : list Z) : total (a ++ b) = total a + total b.
Proof.
  unfold total. induction a as [|x a IH]; cbn [app fold_right]; lia.
Qed.

Lemma handle_conserves_words (lib : driverlib) (i : irq) (st : udma) :
  is_u32 (udma_xfer_len st) ->
  total (armed_sizes (trace (handle lib i st))) +
  udma_xfer_len (final (handle lib i st)) = udma_xfer_len st.
Proof.
  intros Hx. destruct (chunk_sub_exact _ Hx) as [He _].
  handler_paths lib i st; cbv zeta; cbn [trace final fst snd udma_xfer_len
    set_channel_lock set_callback_ptr set_xfer_succ_cnt set_xfer_fail_cnt
    set_error_cnt set_xfer_dst set_xfer_src set_xfer_len set_handler_len];
    try rewrite He; try (cbn; lia);
    destruct (udma_callback_ptr st =? NULL); cbn; lia.
Qed.

Lemma run_conserves_words (lib : driverlib) (irqs : list irq) (st : udma) :
  is_u32 (udma_xfer_len st) ->
  total (armed_sizes (trace (run lib irqs st))) +
  udma_xfer_len (final (run lib irqs st)) = udma_xfer_len st.
Proof.
  revert st; induction irqs as [|i irqs IH]; intros st Hx.
  - cbn. lia.
  - rewrite trace_run_cons, final_run_cons, armed_sizes_app, total_app.
    pose proof (handle_conserves_words lib i st Hx) as H1.
    destruct (handle_xfer_len lib i st Hx) as [_ Hb].
    assert (Hx1 : is_u32 (udma_xfer_len (final (handle lib i st))))
      by (unfold is_u32 in *; lia).
    pose proof (IH _ Hx1) as H2. lia.
Qed.

(** X2: from a successful start on, whatever interrupts follow, the
    lengths programmed so far and the remaining length add up to the
    length requested (as a [uint32_t]): no word is queued twice and none
    is dropped by the handlers. *)
Theorem queued_plus_remaining_is_length
  (lib : driverlib) (st : udma) (dst src len chan cb : Z)
  (irqs : list irq) :
  udma_channel_lock st = 0 ->
  let start := dma_memcpy lib dst src len chan cb st in
  let r := run lib irqs (final start) in
  total (armed_sizes (trace start ++ trace r)) + udma_xfer_len (final r) =
  u32 len.
Proof.
  intros Hlock start r.
  destruct (dma_memcpy_start_trace lib st dst src len chan cb Hlock)
    as (Hs & _).
  fold start in Hs.
  destruct (chunk_sub_exact _ (u32_range len)) as [He Hb].
  assert (Hx : udma_xfer_len (final start) =
               u32 len - Z.min (u32 len) MAX_XFER_LEN).
  { subst start. rewrite dma_memcpy_start by assumption.
    cbn [final fst snd udma_xfer_len]. exact He. }
  assert (Hu : is_u32 (udma_xfer_len (final start))).
  { rewrite Hx. pose proof (u32_range len). unfold is_u32 in *. lia. }
  pose proof (run_conserves_words lib irqs (final start) Hu) as Hr.
  fold r in Hr.
  rewrite armed_sizes_app, total_app, Hs. cbn [total fold_right]. lia.
Qed.

(** 2500 words, two completions in stop mode: 2048 queued, 452 left. *)
Lemma queued_plus_remaining_witness :
  let start := dma_memcpy tivaware 4096 8192 2500 5 77 udma_init in
  let r := run tivaware [TransferDone 0] (final start) in
  total (armed_sizes (trace start ++ trace r)) + udma_xfer_len (final r) =
  u32 2500.
Proof.
  apply (queued_plus_remaining_is_length tivaware udma_init
           4096 8192 2500 5 77 [TransferDone 0]).
  reflexivity.
Defined.

(** ** Addresses of the chunks *)

Lemma transfers_app (a b : list event) :
  transfers (a ++ b) = transfers a ++ transfers b.
Proof. apply flat_map_app. Qed.

Lemma tile_app (src dst : Z) (a b : list Z) :
  tile src dst (a ++ b) =
  tile src dst a ++ tile (advance src a) (advance dst a) b.
Proof.
  revert src dst; induction a as [|c a IH]; intros src dst; [reflexivity|].
  cbn [app tile]. rewrite IH. reflexivity.
Qed.

Lemma advance_app (p : Z) (a b : list Z) :
  advance p (a ++ b) = advance (advance p a) b.
Proof. apply fold_left_app. Qed.

Lemma ptr_add_ptr_add (p a b : Z) :
  ptr_add (ptr_add p a) b = ptr_add p (a + b).
Proof.
  unfold ptr_add, u32. rewrite Zplus_mod_idemp_l. f_equal. lia.
Qed.

Lemma advance_ptr_add (p c : Z) (sizes : list Z) :
  advance (ptr_add p c) sizes = ptr_add p (c + total sizes).
Proof.
  revert c; induction sizes as [|x sizes IH]; intros c.
  - cbn. rewrite Z.add_0_r. reflexivity.
  - cbn [advance fold_left]. rewrite ptr_add_ptr_add.
    change (fold_left ptr_add sizes (ptr_add p (c + x)))
      with (advance (ptr_add p (c + x)) sizes).
    rewrite IH. unfold total. cbn [fold_right]. f_equal. lia.
Qed.

Lemma handle_tiles (lib : driverlib) (i : irq) (st : udma) :
  let r := handle lib i st in
  transfers (trace r) =
    tile (udma_xfer_src st) (udma_xfer_dst st) (armed_sizes (trace r)) /\
  udma_xfer_src (final r) = advance (udma_xfer_src st) (armed_sizes (trace r)) /\
  udma_xfer_dst (final r) = advance (udma_xfer_dst st) (armed_sizes (trace r)).
Proof.
  cbv zeta. handler_paths lib i st; cbv zeta; cbn [trace final fst snd];
    try (repeat split; reflexivity);
    destruct (udma_callback_ptr st =? NULL); repeat split; reflexivity.
Qed.

Lemma run_tiles (lib : driverlib) (irqs : list irq) (st : udma) :
  let r := run lib irqs st in
  transfers (trace r) =
    tile (udma_xfer_src st) (udma_xfer_dst st) (armed_sizes (trace r)) /\
  udma_xfer_src (final r) = advance (udma_xfer_src st) (armed_sizes (trace r)) /\
  udma_xfer_dst (final r) = advance (udma_xfer_dst st) (armed_sizes (trace r)).
Proof.
  revert st; induction irqs as [|i irqs IH]; intros st; cbv zeta.
  - repeat split; reflexivity.
  - rewrite trace_run_cons, final_run_cons, transfers_app, armed_sizes_app.
    destruct (handle_tiles lib i st) as (Ht & Hs & Hd).
    destruct (IH (final (handle lib i st))) as (Ht' & Hs' & Hd').
    rewrite tile_app, !advance_app, Ht, Ht', Hs', Hd', Hs, Hd.
    repeat split; reflexivity.
Qed.

(** X3: from a successful start on, whatever interrupts follow, the
    chunks are programmed back to back: the first at [src] and [dst], each
    later one where the one before it ended, in source and in destination;
    and the stored cursors stand at [src] and [dst] plus four bytes for
    every word programmed so far, in the 32-bit address space. *)
Theorem chunks_are_back_to_back
  (lib : driverlib) (st : udma) (dst src len chan cb : Z)
  (irqs : list irq) :
  udma_channel_lock st = 0 ->
  let start := dma_memcpy lib dst src len chan cb st in
  let r := run lib irqs (final start) in
  let t := trace start ++ trace r in
  transfers t = tile src dst (armed_sizes t) /\
  udma_xfer_src (final r) = u32 (src + 4 * total (armed_sizes t)) /\
  udma_xfer_dst (final r) = u32 (dst + 4 * total (armed_sizes t)).
Proof.
  intros Hlock start r t.
  set (c := Z.min (u32 len) MAX_XFER_LEN).
  destruct (dma_memcpy_start_trace lib st dst src len chan cb Hlock)
    as (Hs0 & _).
  fold start c in Hs0.
  assert (Ht0 : transfers (trace start) = [(src, dst, c)]).
  { subst start. rewrite dma_memcpy_start by assumption.
    cbn [trace snd]. rewrite transfers_app.
    destruct (udma_is_initialized st =? 0); reflexivity. }
  assert (Hsrc : udma_xfer_src (final start) = ptr_add src c)
    by (subst start; rewrite dma_memcpy_start by assumption; reflexivity).
  assert (Hdst : udma_xfer_dst (final start) = ptr_add dst c)
    by (subst start; rewrite dma_memcpy_start by assumption; reflexivity).
  destruct (run_tiles lib irqs (final start)) as (Ht & Hs & Hd).
  fold r in Ht, Hs, Hd. rewrite Hsrc, Hdst in *.
  subst t. rewrite transfers_app, armed_sizes_app, Ht0, Ht, Hs0.
  cbn [app tile]. split; [reflexivity|].
  rewrite Hs, Hd, !advance_ptr_add. cbn [total fold_right].
  split; reflexivity.
Qed.

(** 2500 words from 8192 to 4096 and three completions in stop mode. *)
Lemma chunks_back_to_back_witness :
  let start := dma_memcpy tivaware 4096 8192 2500 5 77 udma_init in
  let r := run tivaware (repeat (TransferDone 0) 3) (final start) in
  let t := trace start ++ trace r in
  transfers t = tile 8192 4096 (armed_sizes t) /\
  udma_xfer_src (final r) = u32 (8192 + 4 * total (armed_sizes t)) /\
  udma_xfer_dst (final r) = u32 (4096 + 4 * total (armed_sizes t)).
Proof.
  apply (chunks_are_back_to_back tivaware udma_init 4096 8192 2500 5 77
           (repeat (TransferDone 0) 3)).
  reflexivity.
Defined.

Example transfers_2500 :
  transfers (trace (session tivaware 4096 8192 2500 5 77 3 udma_init)) =
  [(8192, 4096, 1024); (12288, 8192, 1024); (16384, 12288, 452)].
Proof. reflexivity. Qed.

(** ** After a controller error *)

(** X4: a pending controller error reports to the stored callback, with
    code 2, but does not stop the transfer.  The error handler programs
    nothing and leaves the remaining length and the cursors as they are;
    the next completion in stop mode queues the next chunk,
    min(remaining, 1024) words at the stored cursors, and calls no
    callback, the pointer being [NULL] by then. *)
Theorem error_does_not_stop_the_transfer
  (lib : driverlib) (st : udma) (hw_status : Z) :
  hw_status <> 0 ->
  let e := uDMAErrorHandler hw_status st in
  let r := uDMAIntHandler lib (UDMA_MODE_STOP lib) (final e) in
  transfers (trace e) = [] /\ requests (trace e) = [] /\
  udma_xfer_len (final e) = udma_xfer_len st /\
  udma_xfer_src (final e) = udma_xfer_src st /\
  udma_xfer_dst (final e) = udma_xfer_dst st /\
  udma_callback_ptr (final e) = NULL /\
  (udma_callback_ptr st <> NULL ->
   callbacks (trace e) = [(udma_callback_ptr st, 2)]) /\
  transfers (trace r) =
    [(udma_xfer_src st, udma_xfer_dst st,
      Z.min (udma_xfer_len st) MAX_XFER_LEN)] /\
  requests (trace r) = [udma_channel st] /\
  callbacks (trace r) = [].
Proof.
  intros Hs e r. subst r e.
  rewrite (uDMAErrorHandler_error st hw_status Hs).
  cbn [final fst snd trace].
  rewrite uDMAIntHandler_continue by (left; reflexivity).
  cbv zeta. cbn [trace snd].
  destruct (Z.eqb_spec (udma_callback_ptr st) NULL);
    repeat split; try reflexivity; intros Hcb; contradiction.
Qed.

(** 2500 words, an error with status 1 after the start, then the
    completion of the first chunk. *)
Lemma error_does_not_stop_witness :
  let st := final (dma_memcpy tivaware 4096 8192 2500 5 77 udma_init) in
  let e := uDMAErrorHandler 1 st in
  let r := uDMAIntHandler tivaware 0 (final e) in
  callbacks (trace e) = [(77, 2)] /\
  transfers (trace r) = [(12288, 8192, 1024)] /\
  requests (trace r) = [5] /\
  callbacks (trace r) = [].
Proof.
  intros st e r.
  pose proof (error_does_not_stop_the_transfer tivaware st 1) as H.
  destruct H as (_ & _ & _ & _ & _ & _ & He & Ht & Hr & Hc);
    [discriminate|].
  split; [apply He; discriminate|].
  split; [exact Ht|]. split; [exact Hr|exact Hc].
Defined.

(** ** Completions with no callback stored *)

Lemma run_without_callback (lib : driverlib) (n : nat) (st : udma) :
  udma_callback_ptr st = NULL ->
  let r := run lib (repeat (TransferDone (UDMA_MODE_STOP lib)) n) st in
  callbacks (trace r) = [] /\
  length (armed_sizes (trace r)) = n /\
  udma_callback_ptr (final r) = NULL /\
  (udma_xfer_len st = 0 ->
   armed_sizes (trace r) = repeat 0 n /\ udma_xfer_len (final r) = 0).
Proof.
  revert st; induction n as [|n IH]; intros st Hcb; cbv zeta.
  - cbn. repeat split; try assumption; intros H; exact H.
  - cbn [repeat]. rewrite trace_run_cons, final_run_cons. cbn [handle].
    rewrite (uDMAIntHandler_continue lib st (or_introl Hcb)).
    cbv zeta. cbn [trace final fst snd].
    set (st1 := set_channel_lock 0 _).
    destruct (IH st1 Hcb) as (Hc & Hl & Hp & Hz).
    rewrite callbacks_app, armed_sizes_app, length_app, Hc, Hl, Hp.
    split; [reflexivity|]. split; [reflexivity|]. split; [reflexivity|].
    intros Hx. destruct Hz as [Ha Hf].
    + subst st1. cbn. rewrite Hx. reflexivity.
    + rewrite Ha, Hf, Hx. split; reflexivity.
Qed.

(** X5: with no callback stored the completion handler has no success
    path.  Every completion in stop mode queues a chunk, so [n]
    completions program [n] transfers and call nothing; once the remaining
    length is 0 each of them is a transfer of length 0. *)
Theorem without_callback_every_completion_queues
  (lib : driverlib) (n : nat) (st : udma) :
  udma_callback_ptr st = NULL ->
  let r := run lib (repeat (TransferDone (UDMA_MODE_STOP lib)) n) st in
  callbacks (trace r) = [] /\
  length (armed_sizes (trace r)) = n /\
  (udma_xfer_len st = 0 -> armed_sizes (trace r) = repeat 0 n).
Proof.
  intros Hcb r.
  destruct (run_without_callback lib n st Hcb) as (Hc & Hl & _ & Hz).
  split; [exact Hc|]. split; [exact Hl|].
  intros Hx. apply Hz. exact Hx.
Qed.

(** 300 words started without a callback: the chunk, then four
    completions. *)
Lemma without_callback_witness :
  let st := final (dma_memcpy tivaware 4096 8192 300 5 NULL udma_init) in
  let r := run tivaware (repeat (TransferDone 0) 4) st in
  callbacks (trace r) = [] /\
  length (armed_sizes (trace r)) = 4%nat /\
  armed_sizes (trace r) = repeat 0 4.
Proof.
  intros st r.
  pose proof (without_callback_every_completion_queues tivaware 4 st eq_refl)
    as (Hc & Hl & Hz).
  split; [exact Hc|]. split; [exact Hl|]. apply Hz. reflexivity.
Defined.

(** ** Starting again *)

(** X6: the lock only covers the time from a start to the next interrupt.
    After any handler invocation, whatever it did and however many words
    were left, [dma_memcpy] is accepted: it returns 0, and the remaining
    length, the cursors and the channel are those of the new transfer, so
    the words the earlier transfer had left are never queued. *)
Theorem start_is_accepted_after_any_interrupt
  (lib : driverlib) (st : udma) (i : irq) (dst src len chan cb : Z) :
  let r := dma_memcpy lib dst src len chan cb (final (handle lib i st)) in
  let c := Z.min (u32 len) MAX_XFER_LEN in
  result r = 0 /\
  udma_xfer_len (final r) = u32 len - c /\
  udma_xfer_src (final r) = ptr_add src c /\
  udma_xfer_dst (final r) = ptr_add dst c /\
  udma_channel (final r) = chan /\
  transfers (trace r) = [(src, dst, c)].
Proof.
  intros r c. subst r.
  pose proof (handle_releases_lock lib i st) as Hlock.
  rewrite dma_memcpy_start by exact Hlock.
  cbv zeta. cbn [result final trace fst snd udma_xfer_len udma_xfer_src
                 udma_xfer_dst udma_channel].
  destruct (chunk_sub_exact _ (u32_range len)) as [He _]. fold c in He.
  rewrite transfers_app.
  repeat split; try reflexivity; try exact He.
  destruct (udma_is_initialized (final (handle lib i st)) =? 0); reflexivity.
Qed.

Example second_start_replaces_first :
  let st := final (session tivaware 4096 8192 2500 5 77 1 udma_init) in
  let r := dma_memcpy tivaware 20480 24576 300 6 99 st in
  udma_xfer_len st = 452 /\ result r = 0 /\
  udma_xfer_len (final r) = 0 /\ udma_callback_ptr (final r) = 99.
Proof. repeat split. Qed.

(** X11: of two calls of [dma_memcpy] with no interrupt between them,
    the second returns 1, whatever the first returned, and changes
    nothing. *)
Theorem second_call_in_a_row_is_busy
  (lib : driverlib) (st : udma) (dst src len chan cb : Z)
  (dst' src' len' chan' cb' : Z) :
  let first := dma_memcpy lib dst src len chan cb st in
  let second := dma_memcpy lib dst' src' len' chan' cb' (final first) in
  result second = 1 /\ final second = final first /\ trace second = [].
Proof.
  intros first second. subst second first.
  destruct (Z.eq_dec (udma_channel_lock st) 0) as [H|H].
  - rewrite (dma_memcpy_start lib st) by exact H. cbv zeta.
    cbn [final fst snd]. rewrite dma_memcpy_busy by (cbn; discriminate).
    repeat split.
  - rewrite (dma_memcpy_busy lib st) by exact H. cbn [final fst snd].
    rewrite dma_memcpy_busy by exact H. repeat split.
Qed.

(** ** Whose callback is called *)

(** X7: a non-null [cb] replaces the stored pointer without calling it.
    From a successful start with a non-null [cb] on, whatever interrupts
    follow, every callback call is a call of [cb]: a pointer an earlier
    transfer had left stored is never called. *)
Theorem new_callback_replaces_stored_one
  (lib : driverlib) (st : udma) (dst src len chan cb : Z)
  (irqs : list irq) :
  udma_channel_lock st = 0 ->
  cb <> NULL ->
  let start := dma_memcpy lib dst src len chan cb st in
  let r := run lib irqs (final start) in
  Forall (fun call => fst call = cb) (callbacks (trace start ++ trace r)).
Proof.
  intros Hlock Hcb start r.
  destruct (dma_memcpy_start_trace lib st dst src len chan cb Hlock)
    as (_ & _ & _ & _ & Hc0).
  fold start in Hc0. rewrite callbacks_app, Hc0. cbn [app].
  assert (Hp : udma_callback_ptr (final start) = cb).
  { subst start. rewrite dma_memcpy_start by assumption.
    cbn [final fst snd udma_callback_ptr].
    destruct (Z.eqb_spec cb NULL); [contradiction|reflexivity]. }
  destruct (run_callbacks lib irqs (final start))
    as [(Hc & _) | (_ & i & _ & Hc & _)]; fold r in Hc; rewrite Hc.
  - constructor.
  - constructor; [cbn; exact Hp|constructor].
Qed.

(** The first transfer stores 77 and is overtaken after its first
    completion by a transfer with callback 99, which then fails. *)
Lemma new_callback_witness :
  let st := final (session tivaware 4096 8192 2500 5 77 1 udma_init) in
  let start := dma_memcpy tivaware 20480 24576 300 6 99 st in
  let r := run tivaware [TransferDone 1; TransferDone 0] (final start) in
  udma_callback_ptr st = 77 /\
  Forall (fun call => fst call = 99) (callbacks (trace start ++ trace r)).
Proof.
  intros st start r. split; [reflexivity|].
  apply (new_callback_replaces_stored_one tivaware st 20480 24576 300 6 99
           [TransferDone 1; TransferDone 0]).
  - reflexivity.
  - discriminate.
Defined.

(** ** What the counters count *)

Lemma u32_add_u32 (a b : Z) : u32 (u32 a + b) = u32 (a + b).
Proof. unfold u32. apply Zplus_mod_idemp_l. Qed.

Lemma count_irqs_cons (p : irq -> bool) (i : irq) (irqs : list irq) :
  count_irqs p (i :: irqs) =
  (if p i then 1 else 0) + count_irqs p irqs.
Proof.
  unfold count_irqs. cbn [filter]. destruct (p i); cbn [length]; lia.
Qed.

(** A variable that one kind of interrupt increments and no other
    interrupt touches holds the number of those interrupts, modulo 2^32. *)
Lemma run_counts (lib : driverlib) (field : udma -> Z) (p : irq -> bool) :
  (forall i st,
     field (final (handle lib i st)) =
     if p i then u32 (field st + 1) else field st) ->
  forall irqs st,
    is_u32 (field st) ->
    field (final (run lib irqs st)) = u32 (field st + count_irqs p irqs).
Proof.
  intros Hstep irqs; induction irqs as [|i irqs IH]; intros st Hc.
  - cbn. rewrite Z.add_0_r. symmetry. apply u32_small. exact Hc.
  - rewrite final_run_cons, count_irqs_cons.
    specialize (Hstep i st). destruct (p i).
    + rewrite IH by (rewrite Hstep; apply u32_range).
      rewrite Hstep, u32_add_u32. f_equal. lia.
    + rewrite IH by (rewrite Hstep; exact Hc).
      rewrite Hstep. f_equal.
Qed.

(** X8: over any sequence of interrupts each counter grows, modulo 2^32,
    by the number of interrupts of its kind: [udma_xfer_succ_cnt] by the
    completions that read the stop mode, whether they end the transfer or
    queue a chunk, [udma_xfer_fail_cnt] by the completions that read
    another mode, [udma_error_cnt] by the error interrupts with a pending
    status. *)
Theorem counters_count_interrupts
  (lib : driverlib) (irqs : list irq) (st : udma) :
  is_u32 (udma_error_cnt st) ->
  is_u32 (udma_xfer_fail_cnt st) ->
  is_u32 (udma_xfer_succ_cnt st) ->
  let st' := final (run lib irqs st) in
  udma_xfer_succ_cnt st' =
    u32 (udma_xfer_succ_cnt st + count_irqs (stop_completion lib) irqs) /\
  udma_xfer_fail_cnt st' =
    u32 (udma_xfer_fail_cnt st + count_irqs (failed_completion lib) irqs) /\
  udma_error_cnt st' =
    u32 (udma_error_cnt st + count_irqs pending_error irqs).
Proof.
  intros He Hf Hs st'. subst st'.
  split; [|split].
  - apply (run_counts lib udma_xfer_succ_cnt); [|exact Hs].
    intros i s. handler_paths lib i s;
      cbn [stop_completion final fst snd];
      rewrite ?Z.eqb_refl; try reflexivity.
    destruct (Z.eqb_spec hw (UDMA_MODE_STOP lib)); [contradiction|].
    reflexivity.
  - apply (run_counts lib udma_xfer_fail_cnt); [|exact Hf].
    intros i s. handler_paths lib i s;
      cbn [failed_completion final fst snd];
      rewrite ?Z.eqb_refl; try reflexivity.
    destruct (Z.eqb_spec hw (UDMA_MODE_STOP lib)); [contradiction|].
    reflexivity.
  - apply (run_counts lib udma_error_cnt); [|exact He].
    intros i s. handler_paths lib i s;
      cbn [pending_error final fst snd]; try reflexivity.
    destruct (Z.eqb_spec hw 0); [contradiction|]. reflexivity.
Qed.

(** Three completions in stop mode, one failed, one spurious error
    interrupt and one real one, from the initial state. *)
Lemma counters_count_witness :
  let irqs := [TransferDone 0; TransferDone 0; ControllerError 0;
               TransferDone 1; ControllerError 1; TransferDone 0] in
  let st' := final (run tivaware irqs udma_init) in
  udma_xfer_succ_cnt st' = 3 /\ udma_xfer_fail_cnt st' = 1 /\
  udma_error_cnt st' = 1.
Proof.
  intros irqs st'.
  apply (counters_count_interrupts tivaware irqs udma_init);
    unfold is_u32; cbn; lia.
Defined.

(** ** The state a successful session leaves *)

(** X12: a transfer of [L] words, [L] at least 1, started with a callback
    and completed in stop mode ceil(L / 1024) times leaves the module
    idle: the lock is free, the callback pointer is [NULL], nothing remains
    to queue, the cursors stand [L] words past [src] and [dst], and the
    success counter has grown by the number of chunks. *)
Theorem successful_session_leaves_module_idle
  (lib : driverlib) (st : udma) (dst src L chan cb : Z) :
  udma_channel_lock st = 0 ->
  1 <= L < 2 ^ 32 ->
  cb <> NULL ->
  is_u32 (udma_xfer_succ_cnt st) ->
  let k := Z.to_nat (ceil_div L MAX_XFER_LEN) in
  let st' := final (session lib dst src L chan cb k st) in
  udma_channel_lock st' = 0 /\
  udma_callback_ptr st' = NULL /\
  udma_xfer_len st' = 0 /\
  udma_xfer_src st' = u32 (src + 4 * L) /\
  udma_xfer_dst st' = u32 (dst + 4 * L) /\
  udma_xfer_succ_cnt st' = u32 (udma_xfer_succ_cnt st + Z.of_nat k).
Proof.
  intros Hlock HL Hcb Hsucc k st'.
  set (c := Z.min L MAX_XFER_LEN).
  set (st1 := final (dma_memcpy lib dst src L chan cb st)).
  set (stop := TransferDone (UDMA_MODE_STOP lib)).
  assert (HuL : u32 L = L) by (apply u32_small; unfold is_u32; lia).
  destruct (chunk_sub_exact L) as [He Hb]; [unfold is_u32; lia|].
  fold c in He, Hb.
  assert (Hst1 : udma_xfer_len st1 = L - c /\
                 udma_callback_ptr st1 = cb /\
                 udma_xfer_src st1 = ptr_add src c /\
                 udma_xfer_dst st1 = ptr_add dst c /\
                 udma_xfer_succ_cnt st1 = udma_xfer_succ_cnt st).
  { subst st1. rewrite dma_memcpy_start by assumption. cbv zeta.
    cbn [final fst snd udma_xfer_len udma_callback_ptr udma_xfer_src
         udma_xfer_dst udma_xfer_succ_cnt].
    rewrite HuL. fold c. rewrite He.
    destruct (Z.eqb_spec cb NULL); [contradiction|]. repeat split. }
  destruct Hst1 as (Hx1 & Hcb1 & Hs1 & Hd1 & Hc1).
  assert (Hu1 : is_u32 (udma_xfer_len st1))
    by (rewrite Hx1; unfold is_u32; lia).
  pose proof (ceil_div_step L ltac:(lia)) as Hstep. fold c in Hstep.
  pose proof (ceil_div_le L ltac:(lia)) as Hceil.
  pose proof (ceil_div_le (L - c) ltac:(lia)) as Hceil1.
  set (m := Z.to_nat (ceil_div (L - c) MAX_XFER_LEN)).
  assert (Hk : k = S m) by (subst k m; lia).
  destruct (run_queues_chunks lib m m st1) as (_ & _ & _ & _ & Hz & Hp);
    [rewrite Hcb1; exact Hcb|exact Hu1|rewrite Hx1; subst m; lia|lia|].
  fold stop in Hz, Hp.
  assert (Hfin : st' = final (run lib (repeat stop k) st1))
    by (subst st'; apply final_session).
  assert (Hlast : final (run lib (repeat stop k) st1) =
                  final (handle lib stop (final (run lib (repeat stop m) st1)))).
  { rewrite Hk. cbn [repeat]. rewrite repeat_cons, final_run_app.
    apply final_run_cons. }
  assert (Hzero : udma_xfer_len st' = 0).
  { rewrite Hfin, Hlast. subst stop. cbn [handle].
    rewrite uDMAIntHandler_success by congruence. cbn. exact Hz. }
  pose proof (run_conserves_words lib (repeat stop k) st1 Hu1) as Hsum.
  rewrite <- Hfin, Hzero, Hx1 in Hsum.
  destruct (run_tiles lib (repeat stop k) st1) as (_ & Hsrc & Hdst).
  rewrite <- Hfin, Hs1, advance_ptr_add in Hsrc.
  rewrite <- Hfin, Hd1, advance_ptr_add in Hdst.
  split; [|split; [|split; [|split; [|split]]]].
  - rewrite Hfin. apply run_releases_lock. rewrite Hk. discriminate.
  - rewrite Hfin, Hlast. subst stop. cbn [handle].
    rewrite uDMAIntHandler_success by congruence. reflexivity.
  - exact Hzero.
  - rewrite Hsrc. unfold ptr_add. f_equal. lia.
  - rewrite Hdst. unfold ptr_add. f_equal. lia.
  - rewrite Hfin. subst stop.
    rewrite succ_cnt_after_completions by (rewrite Hc1; exact Hsucc).
    rewrite Hc1. reflexivity.
Qed.

Lemma successful_session_idle_witness :
  let st' := final (session tivaware 4096 8192 2500 5 77 3 udma_init) in
  udma_channel_lock st' = 0 /\
  udma_callback_ptr st' = NULL /\
  udma_xfer_len st' = 0 /\
  udma_xfer_src st' = u32 (8192 + 4 * 2500) /\
  udma_xfer_dst st' = u32 (4096 + 4 * 2500) /\
  udma_xfer_succ_cnt st' = u32 (0 + 3).
Proof.
  apply (successful_session_leaves_module_idle tivaware udma_init
           4096 8192 2500 5 77).
  - reflexivity.
  - lia.
  - discriminate.
  - unfold is_u32. cbn. lia.
Defined.

(** Two transfers, the second of 5000 words started after the first
    completion of the first, and their completions. *)
Lemma armed_sizes_limit_witness :
  Forall (fun n => 0 <= n <= MAX_XFER_LEN)
    (armed_sizes
       (trace (run_ops tivaware
                 [OpMemcpy 4096 8192 2500 5 77; OpIrq (TransferDone 0);
                  OpMemcpy 20480 24576 5000 6 NULL; OpIrq (TransferDone 0);
                  OpIrq (ControllerError 1); OpIrq (TransferDone 0)]
                 udma_init))).
Proof.
  apply (armed_sizes_within_limit tivaware).
  unfold is_u32. cbn. lia.
Defined.
